(** * gpa.py: GPA calculation from transcript text

    A shallow embedding of [gpa.py] and the properties its specification
    states about it.

    - Python [float] is IEEE 754 binary64: it is modelled by Rocq's primitive
      [float], whose operations are specified by [FloatAxioms] against
      [SpecFloat].
    - Page text is a [string]; characters are 8-bit code points (the Latin-1
      range of Python's [str]), and the classes [\d], [\w], [\s] are the ones
      Python's [re] uses on that range.
    - The module-level counters become a [state] record threaded through the
      two loops; Python exceptions become the [exn] alternative of a result. *)

From Stdlib Require Import ZArith QArith Qcanon Floats List String Ascii Bool Lia.
From Stdlib Require Import Permutation.
Import ListNotations.

Set Implicit Arguments.
Set Warnings "-inexact-float".

(** ** Python exceptions the script can meet *)

Inductive exn := ZeroDivisionError | ValueError | IndexError.

Inductive result (A : Type) :=
| Ok (a : A)
| Raise (e : exn).
Arguments Ok {A} a.
Arguments Raise {A} e.

(** ** Numbers

    The aggregation code is duck-typed: it only adds, multiplies, divides and
    compares its operands, some of the comparisons being against the literals
    [0], [5], [9], [8], [7], [6] and [5.5].  [Number] is that interface.
    [lit] injects a float literal (every literal of the script is exactly
    representable); [div] is Python's true division, which raises
    [ZeroDivisionError] on a zero divisor. *)

Class Number (A : Type) := {
  lit : float -> A;
  add : A -> A -> A;
  mul : A -> A -> A;
  div : A -> A -> result A;
  ltb : A -> A -> bool;
  leb : A -> A -> bool
}.

(** binary64, the numbers the script really computes with *)

Definition float_div (x y : float) : result float :=
  if PrimFloat.eqb y 0%float then Raise ZeroDivisionError
  else Ok (PrimFloat.div x y).

#[export] Instance float_Number : Number float := {|
  lit := fun x => x;
  add := PrimFloat.add;
  mul := PrimFloat.mul;
  div := float_div;
  ltb := PrimFloat.ltb;
  leb := PrimFloat.leb
|}.

(** exact rationals (Python's [Fraction]): the arithmetic without rounding *)

Definition Q_of_SF (x : spec_float) : Q :=
  match x with
  | S754_finite s m e =>
      let v := match e with
               | Z0 => Zpos m # 1
               | Zpos p => (Zpos m * 2 ^ Zpos p) # 1
               | Zneg p => Zpos m # (2 ^ p)
               end in
      if s then Qopp v else v
  | _ => 0%Q
  end.

Definition Qc_of_float (x : float) : Qc := Q2Qc (Q_of_SF (Prim2SF x)).

Definition Qc_div (x y : Qc) : result Qc :=
  if Qc_eq_dec y (Q2Qc 0) then Raise ZeroDivisionError else Ok (Qcdiv x y).

Definition Qc_ltb (x y : Qc) : bool :=
  match Qccompare x y with Lt => true | _ => false end.

Definition Qc_leb (x y : Qc) : bool :=
  match Qccompare x y with Gt => false | _ => true end.

#[export] Instance Qc_Number : Number Qc := {|
  lit := Qc_of_float;
  add := Qcplus;
  mul := Qcmult;
  div := Qc_div;
  ltb := Qc_ltb;
  leb := Qc_leb
|}.

(** ** The aggregator: running totals, the US mapping, the final report *)

Section Aggregator.
Context {A : Type} {num : Number A}.

(** [(course, date, grade, credits)], as appended to [included_courses] *)
Definition course : Type := string * string * A * A.

Record state := {
  total_weighted_grades : A;
  total_credits : A;
  total_ects : A;
  included_courses : list course
}.

(** gpa.py lines 43-46 *)
Definition init_state : state :=
  {| total_weighted_grades := lit 0%float;
     total_credits := lit 0%float;
     total_ects := lit 0%float;
     included_courses := [] |}.

(** gpa.py lines 49-70 *)
Definition convert_to_us_gpa (grade : A) : float :=
  if leb (lit 9%float) grade then 4.0%float
  else if leb (lit 8%float) grade then 3.7%float
  else if leb (lit 7%float) grade then 3.0%float
  else if leb (lit 6%float) grade then 2.0%float
  else if leb (lit 5.5%float) grade then 1.0%float
  else 0.0%float.

(** The four statements both loops run for a course they include
    (lines 102-105 and lines 132-137): append, then update the totals. *)
Definition include_course (st : state) (c : course) : state :=
  let '(_, _, grade, credits) := c in
  {| total_weighted_grades := add (total_weighted_grades st) (mul grade credits);
     total_credits := add (total_credits st) credits;
     total_ects := add (total_ects st) credits;
     included_courses := included_courses st ++ [c] |}.

(** What the last block (lines 147-153) prints: the three figures, or the
    line 'No valid courses found for GPA calculation.'; an exception that
    escapes is a [Fault]. *)
Inductive outcome :=
| Report (ects european_gpa : A) (us_gpa : float)
| NoData
| Fault (e : exn).

Definition finalize (st : state) : outcome :=
  if ltb (lit 0%float) (total_credits st) then
    match div (total_weighted_grades st) (total_credits st) with
    | Ok european_gpa =>
        Report (total_ects st) european_gpa (convert_to_us_gpa european_gpa)
    | Raise e => Fault e
    end
  else NoData.

(** gpa.py lines 101-105 *)
Definition add_manual_courses (manual : list course) (st : state) : state :=
  fold_left include_course manual st.

End Aggregator.

Arguments course A : clear implicits.
Arguments state A : clear implicits.
Arguments outcome A : clear implicits.

(** ** Strings: the [str] operations the script uses *)

Local Close Scope Qc_scope.
Local Close Scope Q_scope.
Local Open Scope nat_scope.
Local Open Scope string_scope.

Definition newline : ascii := "010"%char.

(** [sep in s] and [s.find(sep)] *)
Fixpoint find (sep s : string) : option nat :=
  if prefix sep s then Some 0
  else match s with
       | String _ s' => option_map S (find sep s')
       | EmptyString => None
       end.

Definition contains (sep s : string) : bool :=
  match find sep s with Some _ => true | None => false end.

(** [s.split(sep)] for a non-empty [sep]: the pieces between the
    occurrences of [sep], found left to right without overlap.  [skip] counts
    the characters of an occurrence still to pass over. *)
Fixpoint split_from (sep : string) (skip : nat) (s : string) : list string :=
  match s with
  | EmptyString => [EmptyString]
  | String a s' =>
      match skip with
      | S n => split_from sep n s'
      | O =>
          if prefix sep s then EmptyString :: split_from sep (length sep - 1) s'
          else match split_from sep 0 s' with
               | p :: ps => String a p :: ps
               | [] => [String a EmptyString]
               end
      end
  end.

Definition split (sep s : string) : list string := split_from sep 0 s.

(** [l[i]], raising [IndexError] out of range *)
Definition getitem {X : Type} (l : list X) (i : nat) : result X :=
  match nth_error l i with
  | Some x => Ok x
  | None => Raise IndexError
  end.

(** ** Regular expressions: the fragment of [re] the script's patterns use

    Character classes, repetition of a class (greedy or lazy, with bounds),
    sequence, ordered alternative and numbered capturing groups, matched by
    backtracking as [re] does. *)

Definition code_in (lo hi : nat) (c : ascii) : bool :=
  (lo <=? nat_of_ascii c)%nat && (nat_of_ascii c <=? hi)%nat.

(** [\d]: the decimal digits; below 256 these are [0-9] *)
Definition is_digit (c : ascii) : bool := code_in 48 57 c.

(** [\w]: alphanumerics and the underscore; above 127 these are the Latin-1
    letters and the numeric characters (superscripts and fractions) *)
Definition is_word (c : ascii) : bool :=
  code_in 48 57 c || code_in 65 90 c || code_in 97 122 c || code_in 95 95 c
  || code_in 170 170 c || code_in 178 179 c || code_in 181 181 c
  || code_in 185 186 c || code_in 188 190 c
  || code_in 192 214 c || code_in 216 246 c || code_in 248 255 c.

(** [\s]: whitespace *)
Definition is_space (c : ascii) : bool :=
  code_in 9 13 c || code_in 28 32 c || code_in 133 133 c || code_in 160 160 c.

Inductive cset :=
| Chr (c : ascii)            (* a literal character *)
| Rng (lo hi : ascii)        (* lo-hi inside brackets *)
| Digit                      (* \d *)
| Word                       (* \w *)
| Space                      (* \s *)
| Dot                        (* . : anything but a newline *)
| Union (a b : cset).        (* members of one bracket *)

Fixpoint cset_mem (cs : cset) (c : ascii) : bool :=
  match cs with
  | Chr c' => Ascii.eqb c' c
  | Rng lo hi => code_in (nat_of_ascii lo) (nat_of_ascii hi) c
  | Digit => is_digit c
  | Word => is_word c
  | Space => is_space c
  | Dot => negb (Ascii.eqb c newline)
  | Union a b => cset_mem a c || cset_mem b c
  end.

Inductive regex :=
| One (cs : cset)
| Repeat (cs : cset) (lo : nat) (hi : option nat) (greedy : bool)
| Seq (r1 r2 : regex)
| Alt (r1 r2 : regex)
| Group (n : nat) (r : regex).

Declare Scope regex_scope.
Delimit Scope regex_scope with re.
Bind Scope regex_scope with regex.
Infix ">>" := Seq (at level 61, right associativity) : regex_scope.

(** the text of the groups that took part in a match, latest first *)
Definition captures := list (nat * string).

Fixpoint group (n : nat) (g : captures) : string :=
  match g with
  | [] => EmptyString
  | (i, s) :: g' => if (i =? n)%nat then s else group n g'
  end.

(** what was read between the input [s] and what is left of it, [rest] *)
Definition consumed (s rest : string) : string :=
  substring 0 (length s - length rest) s.

Definition more (hi : option nat) : bool :=
  match hi with Some O => false | _ => true end.

Definition less (hi : option nat) : option nat := option_map pred hi.

Section Backtracking.
Context {R : Type}.

(** longest run first, giving characters back one at a time *)
Fixpoint repeat_greedy (cs : cset) (lo : nat) (hi : option nat)
    (k : string -> option R) (s : string) : option R :=
  match s with
  | String a s' =>
      if cset_mem cs a && more hi then
        match repeat_greedy cs (pred lo) (less hi) k s' with
        | Some r => Some r
        | None => if (lo =? 0)%nat then k s else None
        end
      else if (lo =? 0)%nat then k s else None
  | EmptyString => if (lo =? 0)%nat then k s else None
  end.

(** shortest run first, taking one more character on failure *)
Fixpoint repeat_lazy (cs : cset) (lo : nat) (hi : option nat)
    (k : string -> option R) (s : string) : option R :=
  match (if (lo =? 0)%nat then k s else None) with
  | Some r => Some r
  | None =>
      match s with
      | String a s' =>
          if cset_mem cs a && more hi
          then repeat_lazy cs (pred lo) (less hi) k s'
          else None
      | EmptyString => None
      end
  end.

Fixpoint exec (r : regex) (s : string) (g : captures)
    (k : string -> captures -> option R) : option R :=
  match r with
  | One cs =>
      match s with
      | String a s' => if cset_mem cs a then k s' g else None
      | EmptyString => None
      end
  | Repeat cs lo hi true => repeat_greedy cs lo hi (fun s' => k s' g) s
  | Repeat cs lo hi false => repeat_lazy cs lo hi (fun s' => k s' g) s
  | Seq r1 r2 => exec r1 s g (fun s1 g1 => exec r2 s1 g1 k)
  | Alt r1 r2 =>
      match exec r1 s g k with
      | Some x => Some x
      | None => exec r2 s g k
      end
  | Group n r1 => exec r1 s g (fun s1 g1 => k s1 ((n, consumed s s1) :: g1))
  end.
End Backtracking.

(** a match starting at the first character of [s]: what is left of [s]
    after it, and its groups *)
Definition match_here (r : regex) (s : string) : option (string * captures) :=
  exec r s [] (fun rest g => Some (rest, g)).

(** [r.search(s)]: the leftmost match *)
Fixpoint search (r : regex) (s : string) : option (string * captures) :=
  match match_here r s with
  | Some m => Some m
  | None => match s with
            | String _ s' => search r s'
            | EmptyString => None
            end
  end.

(** [r.findall(s)]: the groups of the successive matches, left to right
    without overlap.  [skip] counts the characters of the last match still to
    pass over.  (None of the script's patterns matches the empty string.) *)
Fixpoint findall_from (r : regex) (skip : nat) (s : string) : list captures :=
  match skip with
  | S n => match s with
           | String _ s' => findall_from r n s'
           | EmptyString => []
           end
  | O =>
      match match_here r s with
      | Some (rest, g) =>
          g :: match s with
               | String _ s' => findall_from r (length s - length rest - 1) s'
               | EmptyString => []
               end
      | None => match s with
                | String _ s' => findall_from r 0 s'
                | EmptyString => []
                end
      end
  end.

Definition findall (r : regex) (s : string) : list captures := findall_from r 0 s.

(** a replacement template: text and group references [\n] *)
Inductive tpl_item := TGroup (n : nat) | TText (s : string).

Fixpoint expand (tpl : list tpl_item) (g : captures) : string :=
  match tpl with
  | [] => EmptyString
  | TGroup n :: tpl' => group n g ++ expand tpl' g
  | TText s :: tpl' => s ++ expand tpl' g
  end.

(** [re.sub(r, tpl, s)]: every match replaced by the expanded template, the
    text between the matches kept *)
Fixpoint sub_from (r : regex) (tpl : list tpl_item) (skip : nat) (s : string) : string :=
  match skip with
  | S n => match s with
           | String _ s' => sub_from r tpl n s'
           | EmptyString => EmptyString
           end
  | O =>
      match match_here r s with
      | Some (rest, g) =>
          expand tpl g ++
          match s with
          | String a s' =>
              match (length s - length rest)%nat with
              | O => String a (sub_from r tpl 0 s')
              | S n => sub_from r tpl n s'
              end
          | EmptyString => EmptyString
          end
      | None => match s with
                | String a s' => String a (sub_from r tpl 0 s')
                | EmptyString => EmptyString
                end
      end
  end.

Definition sub (r : regex) (tpl : list tpl_item) (s : string) : string :=
  sub_from r tpl 0 s.

(** ** Text normalisation (gpa.py lines 73-91) *)

Local Open Scope regex_scope.

(** [(\w+)-\n(\w+)] *)
Definition hyphen_break : regex :=
  Group 1 (Repeat Word 1 None true) >> One (Chr "-") >> One (Chr newline) >>
  Group 2 (Repeat Word 1 None true).

(** [\n] *)
Definition line_break : regex := One (Chr newline).

(** [(\d\w{4,})([A-Za-z])] *)
Definition code_then_letter : regex :=
  Group 1 (One Digit >> Repeat Word 4 None true) >>
  Group 2 (One (Union (Rng "A" "Z") (Rng "a" "z"))).

Definition preprocess_text (text : string) : string :=
  let text := sub hyphen_break [TGroup 1; TGroup 2] text in
  let text := sub line_break [TText " "] text in
  let text := sub code_then_letter [TGroup 1; TText " "; TGroup 2] text in
  text.

(** ** The course pattern (gpa.py lines 38-40)

    [([A-Za-z0-9]{5,})\s+(.*?)(\d{2}-\d{2}-\d{4})\s+([A-Za-z0-9.]+)\s+(\d+\.\d+|\d+)] *)

Definition alnum : cset := Union (Rng "A" "Z") (Union (Rng "a" "z") (Rng "0" "9")).

Definition regular_pattern : regex :=
  Group 1 (Repeat alnum 5 None true) >>
  Repeat Space 1 None true >>
  Group 2 (Repeat Dot 0 None false) >>
  Group 3 (Repeat Digit 2 (Some 2) true >> One (Chr "-") >>
           Repeat Digit 2 (Some 2) true >> One (Chr "-") >>
           Repeat Digit 4 (Some 4) true) >>
  Repeat Space 1 None true >>
  Group 4 (Repeat (Union alnum (Chr ".")) 1 None true) >>
  Repeat Space 1 None true >>
  Group 5 (Alt (Repeat Digit 1 None true >> One (Chr ".") >> Repeat Digit 1 None true)
               (Repeat Digit 1 None true)).

Local Close Scope regex_scope.

(** ** [float(s)]: Python's conversion of a string to a binary64

    Surrounding whitespace is dropped; an underscore may stand between two
    digits; what is left is an optional sign followed by [inf], [infinity] or
    [nan] in any case, or by a decimal number with an optional exponent.  The
    value is the decimal number rounded to nearest, ties to even.  Anything
    else raises [ValueError]. *)

(** the whitespace [float] drops: the ASCII blanks and, above 127, the
    Unicode spaces (the separators 28-31 are not dropped) *)
Definition is_float_space (c : ascii) : bool :=
  code_in 9 13 c || code_in 32 32 c || code_in 133 133 c || code_in 160 160 c.

Fixpoint lstrip (s : string) : string :=
  match s with
  | String a s' => if is_float_space a then lstrip s' else s
  | EmptyString => EmptyString
  end.

Fixpoint rstrip (s : string) : string :=
  match s with
  | String a s' =>
      match rstrip s' with
      | EmptyString =>
          if is_float_space a then EmptyString else String a EmptyString
      | r => String a r
      end
  | EmptyString => EmptyString
  end.

Definition strip (s : string) : string := rstrip (lstrip s).

(** [prev] is the character before [s]; [None] when an underscore is not
    between two digits *)
Fixpoint drop_underscores (prev : ascii) (s : string) : option string :=
  match s with
  | EmptyString => if Ascii.eqb prev "_" then None else Some EmptyString
  | String a s' =>
      if Ascii.eqb a "_" then
        if is_digit prev then drop_underscores a s' else None
      else if Ascii.eqb prev "_" && negb (is_digit a) then None
      else option_map (String a) (drop_underscores a s')
  end.

Definition lower (c : ascii) : ascii :=
  if code_in 65 90 c then ascii_of_nat (nat_of_ascii c + 32) else c.

Fixpoint lowercase (s : string) : string :=
  match s with
  | String a s' => String (lower a) (lowercase s')
  | EmptyString => EmptyString
  end.

Definition digit_value (c : ascii) : Z := Z.of_nat (nat_of_ascii c - 48).

(** the digits [s] starts with, read onto [acc]: the number, how many digits
    were read, and the rest of [s] *)
Fixpoint digits (s : string) (acc : Z) (n : nat) : Z * nat * string :=
  match s with
  | String a s' =>
      if is_digit a then digits s' (10 * acc + digit_value a)%Z (S n)
      else (acc, n, s)
  | EmptyString => (acc, n, s)
  end.

Definition sign_of (s : string) : bool * string :=
  match s with
  | String "-" s' => (true, s')
  | String "+" s' => (false, s')
  | _ => (false, s)
  end.

(** [digits [. digits] [(e|E) [sign] digits]] with a digit before or after
    the point: the decimal mantissa and the power of ten *)
Definition parse_decimal (s : string) : option (Z * Z) :=
  let '(ip, ni, r1) := digits s 0%Z 0 in
  let '(m, nf, r2) :=
    match r1 with
    | String "." r => digits r ip 0
    | _ => (ip, 0, r1)
    end in
  if (ni + nf =? 0)%nat then None
  else
    match r2 with
    | EmptyString => Some (m, (- Z.of_nat nf)%Z)
    | String e r3 =>
        if Ascii.eqb (lower e) "e" then
          let '(neg, r4) := sign_of r3 in
          let '(x, ne, r5) := digits r4 0%Z 0 in
          match ne, r5 with
          | S _, EmptyString =>
              Some (m, ((if neg then - x else x) - Z.of_nat nf)%Z)
          | _, _ => None
          end
        else None
    end.

(** [(-1)^neg * m * 10^e] rounded to binary64 *)
Definition round_decimal (neg : bool) (m e : Z) : float :=
  SF2Prim
    match m with
    | Zpos p =>
        match e with
        | Zneg q =>
            SFdiv prec emax (S754_finite neg p 0) (S754_finite false (10 ^ q) 0)
        | _ => binary_round prec emax neg (p * Z.to_pos (10 ^ e)) 0
        end
    | _ => S754_zero neg
    end.

Definition py_float (s : string) : result float :=
  match drop_underscores " " (strip s) with
  | None => Raise ValueError
  | Some t =>
      let '(neg, u) := sign_of t in
      let l := lowercase u in
      if String.eqb l "inf" || String.eqb l "infinity"
      then Ok (if neg then neg_infinity else infinity)
      else if String.eqb l "nan" then Ok nan
      else match parse_decimal u with
           | Some (m, e) => Ok (round_decimal neg m e)
           | None => Raise ValueError
           end
  end.

(** ** The script's two loops

    The statements run in a state-and-exception monad over the totals: a
    raised exception leaves the state as it was when it was raised. *)

Definition M (X : Type) : Type := state float -> result X * state float.

Definition ret {X : Type} (x : X) : M X := fun st => (Ok x, st).

Definition bind {X Y : Type} (m : M X) (f : X -> M Y) : M Y :=
  fun st =>
    match m st with
    | (Ok x, st') => f x st'
    | (Raise e, st') => (Raise e, st')
    end.

Notation "x <- m ;; f" := (bind m (fun x => f))
  (at level 62, m at next level, right associativity).
Notation "m ;;; f" := (bind m (fun _ => f))
  (at level 62, right associativity).

(** an expression that may raise *)
Definition eval {X : Type} (r : result X) : M X := fun st => (r, st).

(** an assignment to the module-level variables *)
Definition update (f : state float -> state float) : M unit :=
  fun st => (Ok tt, f st).

(** [try: body except ValueError: handler] *)
Definition try_except_ValueError (body handler : M unit) : M unit :=
  fun st =>
    match body st with
    | (Raise ValueError, st') => handler st'
    | r => r
    end.

(** [for x in l: body] *)
Fixpoint for_each {X : Type} (l : list X) (body : X -> M unit) : M unit :=
  match l with
  | [] => ret tt
  | x :: l' => body x ;;; for_each l' body
  end.

(** [continue] ends the iteration: the rest of the body is skipped *)
Definition continue : M unit := ret tt.

Definition marker : string := "Grades Final examination".

(** gpa.py lines 121-139, the body of [for match in matches] *)
Definition process_match (m : captures) : M unit :=
  try_except_ValueError
    (let course := group 1 m in
     let name := group 2 m in
     let date := group 3 m in
     grade <- eval (py_float (group 4 m)) ;;
     credits <- eval (py_float (group 5 m)) ;;
     if ltb credits 5%float then continue
     else update (fun st =>
            include_course st (course ++ " " ++ name, date, grade, credits)))
    continue.

(** gpa.py lines 116-117: the part of the page that is scanned *)
Definition relevant_content (text : string) : M string :=
  if contains marker text then eval (getitem (split marker text) 1)
  else ret text.

(** gpa.py lines 116-139, from the preprocessed text of a page on *)
Definition parse_text (text : string) : M unit :=
  text <- relevant_content text ;;
  for_each (findall regular_pattern text) process_match.

(** gpa.py lines 108-139, the body of [for page in reader.pages]; [raw] is
    what [page.extract_text()] returned *)
Definition process_page (raw : string) : M unit :=
  parse_text (preprocess_text raw).

(** gpa.py lines 94-98 as distributed *)
Definition manual_courses : list (course float) :=
  [("01 ", "01-01-2024", 10.0%float, 6.0%float)].

(** The whole script, from the manual entries and the text of the pages to
    what it prints. *)
Definition main (manual : list (course float)) (pages : list string)
    : outcome float :=
  match for_each pages process_page (add_manual_courses manual init_state) with
  | (Ok _, st) => finalize st
  | (Raise e, _) => Fault e
  end.

(** ** The loops read as functions

    What one iteration of the match loop decides, and the courses a run
    extracts from its pages; the properties below relate the loops to them. *)

Definition credits_of {A : Type} (c : course A) : A := snd c.

(** the course an iteration includes, if it includes one *)
Definition accept (m : captures) : option (course float) :=
  match py_float (group 4 m), py_float (group 5 m) with
  | Ok grade, Ok credits =>
      if ltb credits 5%float then None
      else Some (group 1 m ++ " " ++ group 2 m, group 3 m, grade, credits)
  | _, _ => None
  end.

Definition accepted (ms : list captures) : list (course float) :=
  flat_map (fun m => match accept m with Some c => [c] | None => [] end) ms.

(** the text [relevant_content] keeps, when it raises nothing *)
Definition section_of (text : string) : string :=
  if contains marker text then nth 1 (split marker text) EmptyString else text.

Definition extracted (pages : list string) : list (course float) :=
  flat_map
    (fun raw => accepted (findall regular_pattern (section_of (preprocess_text raw))))
    pages.

(** ** What a pattern matches

    The strings of a pattern's language, against which the backtracking
    matcher is sound. *)

Fixpoint all_in (cs : cset) (w : string) : bool :=
  match w with
  | String a w' => cset_mem cs a && all_in cs w'
  | EmptyString => true
  end.

Definition within (hi : option nat) (n : nat) : Prop :=
  match hi with Some h => n <= h | None => True end.

Inductive matches : regex -> string -> Prop :=
| matches_one cs a :
    cset_mem cs a = true -> matches (One cs) (String a EmptyString)
| matches_repeat cs lo hi greedy w :
    all_in cs w = true -> lo <= length w -> within hi (length w) ->
    matches (Repeat cs lo hi greedy) w
| matches_seq r1 r2 w1 w2 :
    matches r1 w1 -> matches r2 w2 -> matches (Seq r1 r2) (w1 ++ w2)
| matches_alt_l r1 r2 w : matches r1 w -> matches (Alt r1 r2) w
| matches_alt_r r1 r2 w : matches r2 w -> matches (Alt r1 r2) w
| matches_group n r w : matches r w -> matches (Group n r) w.

Definition parses (s : string) : Prop := exists x, py_float s = Ok x.

Definition totals_agree {A : Type} (st : state A) : Prop :=
  total_ects st = total_credits st.

(** two states with the same three totals (their lists of included courses
    may differ) *)
Definition same_totals {A : Type} (s t : state A) : Prop :=
  total_weighted_grades s = total_weighted_grades t /\
  total_credits s = total_credits t /\
  total_ects s = total_ects t.

(** the string ['\n'] *)
Definition newline_str : string := String newline "".

(** ** What a match captures

    [run r w g g']: the pattern [r] matches the string [w] and turns the
    groups [g] recorded so far into [g']. *)

Inductive run : regex -> string -> captures -> captures -> Prop :=
| run_one cs a g :
    cset_mem cs a = true -> run (One cs) (String a EmptyString) g g
| run_repeat cs lo hi greedy w g :
    all_in cs w = true -> lo <= length w -> within hi (length w) ->
    run (Repeat cs lo hi greedy) w g g
| run_seq r1 r2 w1 w2 g g1 g2 :
    run r1 w1 g g1 -> run r2 w2 g1 g2 -> run (Seq r1 r2) (w1 ++ w2) g g2
| run_alt_l r1 r2 w g g' : run r1 w g g' -> run (Alt r1 r2) w g g'
| run_alt_r r1 r2 w g g' : run r2 w g g' -> run (Alt r1 r2) w g g'
| run_group n r w g g' : run r w g g' -> run (Group n r) w g ((n, w) :: g').

(** the characters of [s] that satisfy [keep], in order *)
Fixpoint filter_chars (keep : ascii -> bool) (s : string) : string :=
  match s with
  | String a s' =>
      if keep a then String a (filter_chars keep s') else filter_chars keep s'
  | EmptyString => EmptyString
  end.

Definition is_newline (c : ascii) : bool := Ascii.eqb c newline.

(** neither a hyphen, nor a newline, nor a space *)
Definition is_solid (c : ascii) : bool :=
  negb (Ascii.eqb c "-" || Ascii.eqb c newline || Ascii.eqb c " ").

(** [A-Za-z] *)
Definition letter : cset := Union (Rng "A" "Z") (Rng "a" "z").

(** [A-Za-z0-9.] *)
Definition grade_chars : cset := Union alnum (Chr ".").

(** the text [t] does not go on with a character of [cs] *)
Definition stops (cs : cset) (t : string) : Prop :=
  match t with
  | String a _ => cset_mem cs a = false
  | EmptyString => True
  end.

(** [dd-mm-yyyy] *)
Definition is_date (s : string) : Prop :=
  exists dd mm yyyy,
    s = dd ++ "-" ++ mm ++ "-" ++ yyyy /\
    all_in Digit dd = true /\ length dd = 2 /\
    all_in Digit mm = true /\ length mm = 2 /\
    all_in Digit yyyy = true /\ length yyyy = 4.

(** digits, or digits, a point and digits *)
Definition is_decimal (s : string) : Prop :=
  (all_in Digit s = true /\ 1 <= length s) \/
  exists i f,
    s = i ++ "." ++ f /\
    all_in Digit i = true /\ 1 <= length i /\
    all_in Digit f = true /\ 1 <= length f.

(** the left-to-right sum of a list of numbers, from [lit 0] *)
Definition total {A : Type} {num : Number A} (l : list A) : A :=
  fold_left add l (lit 0%float).

(** the six values of the US scale *)
Definition us_scale : list float :=
  [4.0; 3.7; 3.0; 2.0; 1.0; 0.0]%float.

Definition name_of {A : Type} (c : course A) : string := fst (fst (fst c)).
Definition date_of {A : Type} (c : course A) : string := snd (fst (fst c)).
Definition grade_of {A : Type} (c : course A) : A := snd (fst c).

(** * Properties *)

Unset Implicit Arguments.

(** ** Order of binary64 values *)

Section FloatOrder.

Ltac cmp_cases :=
  repeat match goal with
  | |- context [Z.compare ?a ?b] => destruct (Z.compare_spec a b)
  | H : context [Z.compare ?a ?b] |- _ => destruct (Z.compare_spec a b)
  | |- context [Pos.compare ?a ?b] => destruct (Pos.compare_spec a b)
  | H : context [Pos.compare ?a ?b] |- _ => destruct (Pos.compare_spec a b)
  end.

Ltac sf_order :=
  unfold SFleb, SFltb, SFeqb, SFcompare; intros;
  repeat match goal with
  | x : spec_float |- _ => destruct x
  | s : bool |- _ => destruct s
  end;
  try discriminate; try reflexivity;
  change (Pos.compare_cont Eq) with Pos.compare in *;
  cmp_cases; simpl in *; try discriminate; try reflexivity; subst;
  try lia.

Lemma SFltb_not_SFleb (x y : spec_float) :
  SFltb x y = true -> SFleb y x = false.
Proof. revert x y. sf_order. Qed.

Lemma SFleb_trans (x y z : spec_float) :
  SFleb x y = true -> SFleb y z = true -> SFleb x z = true.
Proof. revert x y z. sf_order. Qed.

Lemma SFltb_not_SFeqb (x y : spec_float) :
  SFltb x y = true -> SFeqb y x = false.
Proof. revert x y. sf_order. Qed.

Lemma SFeqb_not_SFltb (x y : spec_float) :
  SFeqb x y = true -> SFltb y x = false.
Proof. revert x y. sf_order. Qed.

Lemma SFltb_SFeqb_refl (x y : spec_float) :
  SFltb x y = true -> SFeqb y y = true.
Proof.
  unfold SFltb, SFeqb.
  destruct y as [s|s| |s m e]; cbn [SFcompare].
  - reflexivity.
  - destruct s; reflexivity.
  - destruct x; discriminate.
  - intros _. change (Pos.compare_cont Eq m m) with (Pos.compare m m).
    destruct s; rewrite Z.compare_refl, Pos.compare_refl; reflexivity.
Qed.

End FloatOrder.

Lemma ltb_not_leb (x y : float) :
  PrimFloat.ltb x y = true -> PrimFloat.leb y x = false.
Proof. rewrite FloatAxioms.ltb_spec, FloatAxioms.leb_spec. apply SFltb_not_SFleb. Qed.

Lemma leb_trans (x y z : float) :
  PrimFloat.leb x y = true -> PrimFloat.leb y z = true -> PrimFloat.leb x z = true.
Proof. rewrite !FloatAxioms.leb_spec. apply SFleb_trans. Qed.

Lemma ltb_not_eqb (x y : float) :
  PrimFloat.ltb x y = true -> PrimFloat.eqb y x = false.
Proof. rewrite FloatAxioms.ltb_spec, FloatAxioms.eqb_spec. apply SFltb_not_SFeqb. Qed.

(** a value above another is not a NaN: it equals itself *)
Lemma ltb_eqb_refl (x y : float) :
  PrimFloat.ltb x y = true -> PrimFloat.eqb y y = true.
Proof.
  rewrite FloatAxioms.ltb_spec, FloatAxioms.eqb_spec. apply SFltb_SFeqb_refl.
Qed.

Lemma eqb_not_ltb (x y : float) :
  PrimFloat.eqb x y = true -> PrimFloat.ltb y x = false.
Proof. rewrite FloatAxioms.ltb_spec, FloatAxioms.eqb_spec. apply SFeqb_not_SFltb. Qed.

(** below a threshold [c], a value is not at or above any threshold [d >= c] *)
Lemma below_not_above (c d g : float) :
  PrimFloat.leb c d = true -> PrimFloat.ltb g c = true -> PrimFloat.leb d g = false.
Proof.
  intros Hcd Hg.
  destruct (PrimFloat.leb d g) eqn:Hd; [|reflexivity].
  pose proof (leb_trans _ _ _ Hcd Hd) as H.
  rewrite (ltb_not_leb _ _ Hg) in H. discriminate.
Qed.

(** ** The US mapping *)

Local Open Scope float_scope.

Lemma convert_to_us_gpa_float (g : float) :
  convert_to_us_gpa g =
    if 9 <=? g then 4.0 else if 8 <=? g then 3.7 else if 7 <=? g then 3.0
    else if 6 <=? g then 2.0 else if 5.5 <=? g then 1.0 else 0.0.
Proof. reflexivity. Qed.

Ltac below c d H :=
  rewrite (below_not_above c d _ eq_refl H).

(** C6: [convert_to_us_gpa] is the step table of the specification: 4.0 from
    9 up, 3.7 on [8, 9), 3.0 on [7, 8), 2.0 on [6, 7), 1.0 on [5.5, 6) and
    0.0 below 5.5. *)
Theorem convert_to_us_gpa_table (g : float) :
  ((9 <=? g) = true -> convert_to_us_gpa g = 4.0) /\
  ((8 <=? g) = true /\ (g <? 9) = true -> convert_to_us_gpa g = 3.7) /\
  ((7 <=? g) = true /\ (g <? 8) = true -> convert_to_us_gpa g = 3.0) /\
  ((6 <=? g) = true /\ (g <? 7) = true -> convert_to_us_gpa g = 2.0) /\
  ((5.5 <=? g) = true /\ (g <? 6) = true -> convert_to_us_gpa g = 1.0) /\
  ((g <? 5.5) = true -> convert_to_us_gpa g = 0.0).
Proof.
  rewrite convert_to_us_gpa_float.
  repeat split.
  - intros ->. reflexivity.
  - intros [-> H]. below 9 9 H. reflexivity.
  - intros [-> H]. below 8 9 H. below 8 8 H. reflexivity.
  - intros [-> H]. below 7 9 H. below 7 8 H. below 7 7 H. reflexivity.
  - intros [-> H]. below 6 9 H. below 6 8 H. below 6 7 H. below 6 6 H.
    reflexivity.
  - intros H. below 5.5 9 H. below 5.5 8 H. below 5.5 7 H. below 5.5 6 H.
    below 5.5 5.5 H. reflexivity.
Qed.

(** C9: over [0, 10] the US mapping never decreases when the grade grows. *)
Theorem convert_to_us_gpa_monotone (g1 g2 : float) :
  (0 <=? g1) = true -> (g1 <=? g2) = true -> (g2 <=? 10) = true ->
  (convert_to_us_gpa g1 <=? convert_to_us_gpa g2) = true.
Proof.
  intros _ H12 _.
  assert (up : forall c, (c <=? g1) = true -> (c <=? g2) = true)
    by (intros c Hc; exact (leb_trans _ _ _ Hc H12)).
  rewrite !convert_to_us_gpa_float.
  repeat match goal with
  | |- context [?c <=? g1] =>
      let E := fresh "E" in
      destruct (c <=? g1) eqn:E; [rewrite (up c E) | ]
  end;
  repeat match goal with
  | |- context [?c <=? g2] => destruct (c <=? g2)
  end; reflexivity.
Qed.

Lemma convert_to_us_gpa_monotone_example :
  (0 <=? 6.5) = true /\ (6.5 <=? 8.25) = true /\ (8.25 <=? 10) = true /\
  (convert_to_us_gpa 6.5 <=? convert_to_us_gpa 8.25) = true.
Proof.
  split; [reflexivity | split; [reflexivity | split; [reflexivity | ]]].
  apply (convert_to_us_gpa_monotone 6.5 8.25); reflexivity.
Defined.

(** ** The final report *)

Lemma finalize_positive (st : state float) :
  (0 <? total_credits st) = true ->
  finalize st =
    Report (total_ects st)
           (total_weighted_grades st / total_credits st)
           (convert_to_us_gpa (total_weighted_grades st / total_credits st)).
Proof.
  intros H. unfold finalize; simpl; unfold float_div.
  rewrite H, (ltb_not_eqb _ _ H). reflexivity.
Qed.

Lemma finalize_never_faults (st : state float) (e : exn) :
  finalize st <> Fault e.
Proof.
  destruct (0 <? total_credits st) eqn:H.
  - rewrite (finalize_positive _ H). discriminate.
  - unfold finalize; simpl. rewrite H. discriminate.
Qed.

(** C1: [finalize] reports the two averages when the total of the credits is
    positive, reports [NoData] when it is zero, and raises nothing: the
    division is only reached with a divisor that is not zero. *)
Theorem finalize_guarded (st : state float) :
  ((0 <? total_credits st) = true ->
     finalize st =
       Report (total_ects st)
              (total_weighted_grades st / total_credits st)
              (convert_to_us_gpa (total_weighted_grades st / total_credits st))) /\
  ((total_credits st =? 0) = true -> finalize st = NoData) /\
  (forall e, finalize st <> Fault e).
Proof.
  split; [|split].
  - apply finalize_positive.
  - intros H. unfold finalize; simpl. rewrite (eqb_not_ltb _ _ H). reflexivity.
  - apply finalize_never_faults.
Qed.

Local Close Scope float_scope.

(** ** The loops *)

Lemma py_float_raises (s : string) (e : exn) :
  py_float s = Raise e -> e = ValueError.
Proof.
  unfold py_float.
  destruct (drop_underscores " " (strip s)); [|congruence].
  destruct (sign_of s0) as [neg u].
  destruct (_ || _); [discriminate|].
  destruct (String.eqb _ _); [discriminate|].
  destruct (parse_decimal u) as [[m e']|]; congruence.
Qed.

Lemma not_parses (s : string) : ~ parses s -> py_float s = Raise ValueError.
Proof.
  intros H. destruct (py_float s) as [x|e] eqn:E.
  - exfalso. apply H. exists x. exact E.
  - rewrite (py_float_raises _ _ E) in *. reflexivity.
Qed.

(** an iteration raises nothing, and includes the course [accept] gives *)
Lemma process_match_accept (m : captures) (st : state float) :
  process_match m st =
    (Ok tt, match accept m with Some c => include_course st c | None => st end).
Proof.
  unfold process_match, accept, try_except_ValueError, bind, eval, continue,
    ret, update.
  destruct (py_float (group 4 m)) as [grade|e] eqn:E4.
  - destruct (py_float (group 5 m)) as [credits|e] eqn:E5.
    + destruct (ltb credits 5%float); reflexivity.
    + rewrite (py_float_raises _ _ E5). reflexivity.
  - rewrite (py_float_raises _ _ E4). reflexivity.
Qed.

Lemma for_each_process_match (ms : list captures) (st : state float) :
  for_each ms process_match st =
    (Ok tt, fold_left include_course (accepted ms) st).
Proof.
  revert st. induction ms as [|m ms IH]; intros st; [reflexivity|].
  simpl. unfold bind at 1. rewrite process_match_accept, IH.
  unfold accepted at 2; simpl; fold (accepted ms).
  destruct (accept m); reflexivity.
Qed.

Lemma split_from_nonempty (sep : string) (k : nat) (s : string) :
  split_from sep k s <> [].
Proof.
  revert k. induction s as [|a s IH]; intros k; cbn [split_from]; [discriminate|].
  destruct k; [|apply IH].
  destruct (prefix sep (String a s)); [discriminate|].
  destruct (split_from sep 0 s); discriminate.
Qed.

(** a separator that occurs leaves at least two pieces *)
Lemma split_second (c : ascii) (sep s : string) (n : nat) :
  find (String c sep) s = Some n ->
  exists p q ps, split (String c sep) s = p :: q :: ps.
Proof.
  unfold split. revert n. induction s as [|a s IH]; intros n; [discriminate|].
  cbn [find split_from].
  destruct (prefix (String c sep) (String a s)) eqn:P.
  - intros _.
    destruct (split_from (String c sep) (length (String c sep) - 1) s) eqn:E.
    + destruct (split_from_nonempty _ _ _ E).
    + eauto.
  - destruct (find (String c sep) s) as [n'|]; [|discriminate].
    intros _. destruct (IH n' eq_refl) as (p & q & ps & ->). eauto.
Qed.

Lemma relevant_content_section (text : string) (st : state float) :
  relevant_content text st = (Ok (section_of text), st).
Proof.
  unfold relevant_content, section_of, contains, eval, ret, getitem.
  destruct (find marker text) as [n|] eqn:F; [|reflexivity].
  destruct (split_second _ _ _ _ F) as (p & q & ps & E).
  unfold marker; rewrite E. reflexivity.
Qed.

Lemma parse_text_accepted (text : string) (st : state float) :
  parse_text text st =
    (Ok tt, fold_left include_course
              (accepted (findall regular_pattern (section_of text))) st).
Proof.
  unfold parse_text, bind.
  rewrite relevant_content_section. apply for_each_process_match.
Qed.

(** the page loop raises nothing and includes the extracted courses in order *)
Lemma pages_extracted (pages : list string) (st : state float) :
  for_each pages process_page st =
    (Ok tt, fold_left include_course (extracted pages) st).
Proof.
  revert st. induction pages as [|raw pages IH]; intros st; [reflexivity|].
  simpl. unfold bind at 1, process_page. rewrite parse_text_accepted, IH.
  unfold extracted at 2; simpl; fold (extracted pages).
  rewrite fold_left_app. reflexivity.
Qed.

Lemma accept_threshold (m : captures) (c : course float) :
  accept m = Some c -> ltb (credits_of c) 5%float = false.
Proof.
  unfold accept.
  destruct (py_float (group 4 m)); [|discriminate].
  destruct (py_float (group 5 m)) as [credits|]; [|discriminate].
  destruct (ltb credits 5%float) eqn:E; [discriminate|].
  intros [= <-]. exact E.
Qed.

Lemma accepted_threshold (ms : list captures) :
  Forall (fun c => ltb (credits_of c) 5%float = false) (accepted ms).
Proof.
  induction ms as [|m ms IH]; [constructor|].
  unfold accepted; simpl; fold (accepted ms).
  destruct (accept m) eqn:E; [|exact IH].
  constructor; [exact (accept_threshold _ _ E) | exact IH].
Qed.

Lemma extracted_threshold (pages : list string) :
  Forall (fun c => ltb (credits_of c) 5%float = false) (extracted pages).
Proof.
  induction pages as [|raw pages IH]; [constructor|].
  unfold extracted; simpl; fold (extracted pages).
  apply Forall_app. split; [apply accepted_threshold | exact IH].
Qed.

Section Totals.
Context {A : Type} {num : Number A}.

Lemma included_fold (l : list (course A)) (st : state A) :
  included_courses (fold_left include_course l st)
  = (included_courses st ++ l)%list.
Proof.
  revert st. induction l as [|c l IH]; intros st; simpl.
  - symmetry. apply app_nil_r.
  - rewrite IH. destruct c as [[[? ?] ?] ?]. simpl.
    rewrite <- app_assoc. reflexivity.
Qed.

Lemma totals_agree_include (st : state A) (c : course A) :
  totals_agree st -> totals_agree (include_course st c).
Proof.
  unfold totals_agree. destruct c as [[[? ?] ?] ?]. simpl.
  intros ->. reflexivity.
Qed.

Lemma totals_agree_fold (l : list (course A)) (st : state A) :
  totals_agree st -> totals_agree (fold_left include_course l st).
Proof.
  revert st. induction l as [|c l IH]; intros st H; simpl; [exact H|].
  apply IH, totals_agree_include, H.
Qed.
End Totals.

(** ** Strings *)

Lemma append_nil_r (s : string) : s ++ "" = s.
Proof. induction s; simpl; congruence. Qed.

Lemma append_assoc (s t u : string) : (s ++ t) ++ u = s ++ (t ++ u).
Proof. induction s; simpl; congruence. Qed.

Lemma length_append (s t : string) : length (s ++ t) = length s + length t.
Proof. induction s; simpl; congruence. Qed.

Lemma prefix_append (s t : string) : prefix s (s ++ t) = true.
Proof.
  induction s as [|a s IH]; simpl; [destruct t; reflexivity|].
  destruct (ascii_dec a a); [exact IH | congruence].
Qed.

(** ** Soundness of the backtracking matcher *)

Section Soundness.
Context {R : Type}.

Lemma within_less (hi : option nat) (n : nat) :
  more hi = true -> within (less hi) n -> within hi (S n).
Proof. destruct hi as [[|h]|]; simpl; intros; try discriminate; lia. Qed.

Lemma repeat_greedy_sound (cs : cset) (k : string -> option R) (res : R) :
  forall s lo hi,
    repeat_greedy cs lo hi k s = Some res ->
    exists w t, s = w ++ t /\ all_in cs w = true /\ lo <= length w /\
                within hi (length w) /\ k t = Some res.
Proof.
  assert (stop : forall s lo hi,
    (if (lo =? 0)%nat then k s else None) = Some res ->
    exists w t, s = w ++ t /\ all_in cs w = true /\ lo <= length w /\
                within hi (length w) /\ k t = Some res).
  { intros s lo hi H. destruct lo; [|discriminate].
    exists "", s. repeat split; auto. destruct hi; simpl; lia. }
  induction s as [|a s IH]; intros lo hi; cbn [repeat_greedy]; [apply stop|].
  destruct (cset_mem cs a && more hi) eqn:E; [|apply stop].
  apply andb_prop in E as [Ea Eh].
  destruct (repeat_greedy cs (pred lo) (less hi) k s) as [r|] eqn:G;
    [|apply stop].
  intros [= <-].
  destruct (IH _ _ G) as (w & t & -> & Hw & Hlo & Hhi & Hk).
  exists (String a w), t. simpl. rewrite Ea, Hw.
  repeat split; auto; [lia | apply within_less; assumption].
Qed.

Lemma repeat_lazy_sound (cs : cset) (k : string -> option R) (res : R) :
  forall s lo hi,
    repeat_lazy cs lo hi k s = Some res ->
    exists w t, s = w ++ t /\ all_in cs w = true /\ lo <= length w /\
                within hi (length w) /\ k t = Some res.
Proof.
  induction s as [|a s IH]; intros lo hi; cbn [repeat_lazy];
    destruct (if (lo =? 0)%nat then k _ else None) as [r|] eqn:K;
    try discriminate.
  - intros [= <-]. destruct lo; [|discriminate].
    exists "", "". repeat split; auto. destruct hi; simpl; lia.
  - intros [= <-]. destruct lo; [|discriminate].
    exists "", (String a s). repeat split; auto. destruct hi; simpl; lia.
  - destruct (cset_mem cs a && more hi) eqn:E; [|discriminate].
    apply andb_prop in E as [Ea Eh]. intros G.
    destruct (IH _ _ G) as (w & t & -> & Hw & Hlo & Hhi & Hk).
    exists (String a w), t. simpl. rewrite Ea, Hw.
    repeat split; auto; [lia | apply within_less; assumption].
Qed.

(** whatever a successful run of the matcher reads is in the language of
    the pattern, and the continuation succeeded on what was left *)
Lemma exec_sound (r : regex) (res : R) :
  forall s g (k : string -> captures -> option R),
    exec r s g k = Some res ->
    exists w t g', s = w ++ t /\ matches r w /\ k t g' = Some res.
Proof.
  induction r as [cs|cs lo hi greedy|r1 IH1 r2 IH2|r1 IH1 r2 IH2|n r1 IH1];
    intros s g k; cbn [exec].
  - destruct s as [|a s]; [discriminate|].
    destruct (cset_mem cs a) eqn:E; [|discriminate]. intros H.
    exists (String a ""), s, g. repeat split; auto. constructor. exact E.
  - intros H.
    assert (exists w t, s = w ++ t /\ all_in cs w = true /\ lo <= length w /\
              within hi (length w) /\ k t g = Some res) as
      (w & t & -> & Hw & Hlo & Hhi & Hk).
    { destruct greedy;
        [ apply (repeat_greedy_sound cs (fun s' => k s' g)) in H
        | apply (repeat_lazy_sound cs (fun s' => k s' g)) in H ]; exact H. }
    exists w, t, g. repeat split; auto. constructor; assumption.
  - intros H. apply IH1 in H as (w1 & t1 & g1 & -> & M1 & H).
    apply IH2 in H as (w2 & t2 & g2 & -> & M2 & H).
    exists (w1 ++ w2), t2, g2. rewrite append_assoc.
    repeat split; auto. constructor; assumption.
  - destruct (exec r1 s g k) as [x|] eqn:E1.
    + intros [= <-]. apply IH1 in E1 as (w & t & g' & -> & M1 & H).
      exists w, t, g'. repeat split; auto. apply matches_alt_l, M1.
    + intros H. apply IH2 in H as (w & t & g' & -> & M2 & H).
      exists w, t, g'. repeat split; auto. apply matches_alt_r, M2.
  - intros H. apply IH1 in H as (w & t & g' & -> & M1 & H).
    exists w, t, ((n, consumed (w ++ t) t) :: g'). repeat split; auto.
    constructor. exact M1.
Qed.
End Soundness.

Lemma match_here_sound (r : regex) (s rest : string) (g : captures) :
  match_here r s = Some (rest, g) -> exists w, s = w ++ rest /\ matches r w.
Proof.
  unfold match_here. intros H.
  apply exec_sound in H as (w & t & g' & -> & M & [= -> _]).
  exists w. split; [reflexivity | exact M].
Qed.

(** ** Substitution *)

Lemma search_none (r : regex) (a : ascii) (s : string) :
  search r (String a s) = None ->
  match_here r (String a s) = None /\ search r s = None.
Proof.
  cbn [search]. destruct (match_here r (String a s)); [discriminate|]. auto.
Qed.

(** a pattern that matches nowhere leaves the text as it is *)
Lemma sub_no_match (r : regex) (tpl : list tpl_item) (s : string) :
  search r s = None -> sub r tpl s = s.
Proof.
  unfold sub. induction s as [|a s IH]; intros H.
  - cbn in *. destruct (match_here r ""); [discriminate | reflexivity].
  - apply search_none in H as [H1 H2].
    cbn [sub_from]. rewrite H1, (IH H2). reflexivity.
Qed.

(** ** Text normalisation *)

Lemma no_newline_tail (a : ascii) (s : string) :
  contains newline_str (String a s) = false ->
  a <> newline /\ contains newline_str s = false.
Proof.
  unfold contains, newline_str. cbn [find prefix].
  destruct (ascii_dec newline a) as [<-|N].
  - destruct s; discriminate.
  - destruct (find (String newline "") s); [discriminate|].
    intros _. split; congruence.
Qed.

Lemma contains_newline_append (u v : string) :
  contains newline_str (u ++ String newline v) = true.
Proof.
  unfold contains, newline_str.
  induction u as [|a u IH]; cbn [append find prefix].
  - destruct (ascii_dec newline newline); [|congruence].
    destruct v; reflexivity.
  - destruct (ascii_dec newline a); [destruct (u ++ _); reflexivity|].
    destruct (find (String newline "") (u ++ String newline v));
      [reflexivity | discriminate].
Qed.

(** what [hyphen_break] matches has a newline in it *)
Lemma hyphen_break_newline (w : string) :
  matches hyphen_break w -> exists u v, w = u ++ String newline v.
Proof.
  unfold hyphen_break. intros H.
  inversion H as [| |? ? w1 w2 _ H2| | |]; subst.
  inversion H2 as [| |? ? w3 w4 H3 H4| | |]; subst.
  inversion H4 as [| |? ? w5 w6 H5 _| | |]; subst.
  inversion H5 as [? a Ha| | | | |]; subst.
  cbn [cset_mem] in Ha. apply Ascii.eqb_eq in Ha as <-.
  exists (w1 ++ w3), w6. rewrite append_assoc. reflexivity.
Qed.

Lemma no_newline_no_hyphen_break (x : string) :
  contains newline_str x = false -> search hyphen_break x = None.
Proof.
  induction x as [|a x IH]; intros H; cbn [search].
  - reflexivity.
  - destruct (match_here hyphen_break (String a x)) as [[rest g]|] eqn:E.
    + apply match_here_sound in E as (w & Hw & M).
      apply hyphen_break_newline in M as (u & v & ->).
      rewrite Hw, append_assoc in H. simpl in H.
      rewrite contains_newline_append in H. discriminate.
    + apply IH. apply (no_newline_tail _ _ H).
Qed.

Lemma no_newline_no_line_break (x : string) :
  contains newline_str x = false -> search line_break x = None.
Proof.
  induction x as [|a x IH]; intros H; [reflexivity|].
  apply no_newline_tail in H as [N H].
  cbn [search]. unfold match_here, line_break. cbn [exec cset_mem].
  destruct (Ascii.eqb newline a) eqn:E.
  - apply Ascii.eqb_eq in E. congruence.
  - apply IH, H.
Qed.

(** C4 (as amended): on a text with no newline in which no digit is followed
    by four or more word characters and a letter, [preprocess_text] changes
    nothing, so applying it twice is applying it once. *)
Theorem preprocess_text_clean (x : string) :
  contains newline_str x = false ->
  search code_then_letter x = None ->
  preprocess_text x = x /\
  preprocess_text (preprocess_text x) = preprocess_text x.
Proof.
  intros Hn Hc.
  assert (E : preprocess_text x = x).
  { unfold preprocess_text.
    rewrite (sub_no_match _ _ _ (no_newline_no_hyphen_break _ Hn)).
    rewrite (sub_no_match _ _ _ (no_newline_no_line_break _ Hn)).
    apply sub_no_match, Hc. }
  rewrite !E. split; reflexivity.
Qed.

Lemma preprocess_text_clean_example :
  contains newline_str "5AAA0 Signal Processing 01-07-2023 8.5 5" = false /\
  search code_then_letter "5AAA0 Signal Processing 01-07-2023 8.5 5" = None /\
  preprocess_text "5AAA0 Signal Processing 01-07-2023 8.5 5"
    = "5AAA0 Signal Processing 01-07-2023 8.5 5" /\
  preprocess_text (preprocess_text "5AAA0 Signal Processing 01-07-2023 8.5 5")
    = preprocess_text "5AAA0 Signal Processing 01-07-2023 8.5 5".
Proof.
  split; [reflexivity | split; [reflexivity | ]].
  apply (preprocess_text_clean "5AAA0 Signal Processing 01-07-2023 8.5 5");
    reflexivity.
Defined.

(** C4 (as stated) fails: ["1abcdefgh"] has no newline and no hyphen break,
    yet a second pass splits off one more letter. *)
Lemma preprocess_text_not_idempotent :
  contains newline_str "1abcdefgh" = false /\
  search hyphen_break "1abcdefgh" = None /\
  preprocess_text "1abcdefgh" = "1abcdefg h" /\
  preprocess_text (preprocess_text "1abcdefgh") = "1abcdef g h" /\
  preprocess_text (preprocess_text "1abcdefgh") <> preprocess_text "1abcdefgh".
Proof.
  repeat split; try reflexivity. vm_compute. discriminate.
Qed.

(** ** The section marker *)

Lemma split_from_skip (sep w t : string) :
  split_from sep (length w) (w ++ t) = split_from sep 0 t.
Proof.
  induction w as [|a w IH]; [reflexivity| exact IH].
Qed.

(** up to its first occurrence, a separator cuts off the first piece *)
Lemma split_first (c : ascii) (sep pre post : string) :
  find (String c sep) (pre ++ String c sep ++ post) = Some (length pre) ->
  split (String c sep) (pre ++ String c sep ++ post)
    = pre :: split (String c sep) post.
Proof.
  unfold split. induction pre as [|a pre IH].
  - intros _. cbn [append split_from].
    change (String c (sep ++ post)) with (String c sep ++ post).
    rewrite prefix_append. cbn [length]. rewrite Nat.sub_1_r. cbn [pred].
    rewrite split_from_skip. reflexivity.
  - change (String a pre ++ String c sep ++ post)
      with (String a (pre ++ String c sep ++ post)).
    cbn [find split_from length].
    destruct (prefix (String c sep) (String a (pre ++ String c sep ++ post)));
      [discriminate|].
    destruct (find (String c sep) (pre ++ String c sep ++ post)) as [n|] eqn:F;
      [|discriminate].
    intros [= ->]. rewrite (IH eq_refl). reflexivity.
Qed.

Lemma section_of_first (pre post : string) :
  find marker (pre ++ marker ++ post) = Some (length pre) ->
  section_of (pre ++ marker ++ post) = nth 0 (split marker post) "".
Proof.
  intros F. unfold section_of, contains. rewrite F.
  unfold marker in *. rewrite (split_first _ _ _ _ F). reflexivity.
Qed.

(** the first piece of a split is a prefix of the text *)
Lemma split_head_prefix (sep s : string) :
  prefix (nth 0 (split sep s) "") s = true.
Proof.
  unfold split. induction s as [|a s IH]; [reflexivity|].
  cbn [split_from]. destruct (prefix sep (String a s)); [reflexivity|].
  destruct (split_from sep 0 s) as [|p ps] eqn:E.
  - destruct (split_from_nonempty _ _ _ E).
  - cbn [nth prefix] in *. destruct (ascii_dec a a); [exact IH | congruence].
Qed.

(** C5: when the marker occurs, what stands before its first occurrence is
    not scanned: the text scanned is the start of what follows the marker (up
    to the marker's next occurrence), the courses included from the page are
    the ones accepted from that text alone, and any other text before the
    marker gives the same result. *)
Theorem before_marker_not_scanned (pre post : string) (st : state float) :
  find marker (pre ++ marker ++ post) = Some (length pre) ->
  relevant_content (pre ++ marker ++ post) st
    = (Ok (nth 0 (split marker post) ""), st) /\
  prefix (nth 0 (split marker post) "") post = true /\
  parse_text (pre ++ marker ++ post) st
    = (Ok tt,
       fold_left include_course
         (accepted (findall regular_pattern (nth 0 (split marker post) ""))) st) /\
  (forall pre',
     find marker (pre' ++ marker ++ post) = Some (length pre') ->
     parse_text (pre' ++ marker ++ post) st
       = parse_text (pre ++ marker ++ post) st).
Proof.
  intros F. split; [|split; [|split]].
  - rewrite relevant_content_section, (section_of_first _ _ F). reflexivity.
  - apply split_head_prefix.
  - rewrite parse_text_accepted, (section_of_first _ _ F). reflexivity.
  - intros pre' F'. rewrite !parse_text_accepted.
    rewrite (section_of_first _ _ F), (section_of_first _ _ F'). reflexivity.
Qed.

Lemma before_marker_not_scanned_example :
  let pre := "5XXX0 Summary 01-01-2020 9.0 5 " in
  let post := " 5AAA0 Signal Processing 01-07-2023 8.5 5" in
  find marker (pre ++ marker ++ post) = Some (length pre) /\
  parse_text (pre ++ marker ++ post) init_state
    = (Ok tt,
       fold_left include_course
         (accepted (findall regular_pattern (nth 0 (split marker post) "")))
         init_state).
Proof.
  split; [reflexivity|].
  destruct (before_marker_not_scanned
              "5XXX0 Summary 01-01-2020 9.0 5 "
              " 5AAA0 Signal Processing 01-07-2023 8.5 5" init_state eq_refl)
    as (_ & _ & H & _).
  exact H.
Defined.

(** ** The record filter *)

(** a candidate that [accept] turns down leaves no trace in the loop *)
Lemma rejected_skipped (m : captures) :
  accept m = None ->
  forall before after st,
    for_each (before ++ m :: after) process_match st
      = for_each (before ++ after) process_match st.
Proof.
  intros H before after st. rewrite !for_each_process_match.
  unfold accepted. rewrite !flat_map_app. cbn [flat_map]. rewrite H.
  reflexivity.
Qed.

(** C2: a candidate whose credits parse to less than 5 is never accepted,
    whatever its grade: the iteration leaves the included courses and the
    totals as they were. *)
Theorem below_threshold_rejected (m : captures) (credits : float) :
  py_float (group 5 m) = Ok credits ->
  ltb credits 5%float = true ->
  accept m = None /\
  (forall st, process_match m st = (Ok tt, st)) /\
  (forall before after st,
     for_each (before ++ m :: after) process_match st
       = for_each (before ++ after) process_match st).
Proof.
  intros P L.
  assert (H : accept m = None).
  { unfold accept. rewrite P, L. destruct (py_float (group 4 m)); reflexivity. }
  split; [exact H | split].
  - intros st. rewrite process_match_accept, H. reflexivity.
  - apply rejected_skipped, H.
Qed.

Lemma below_threshold_rejected_example :
  let m := [(5, "4"); (4, "8.5"); (3, "01-07-2023");
            (2, "Signal Processing "); (1, "5AAA0")] in
  findall regular_pattern "5AAA0 Signal Processing 01-07-2023 8.5 4" = [m] /\
  py_float (group 5 m) = Ok 4%float /\
  ltb 4%float 5%float = true /\
  accept m = None.
Proof.
  split; [reflexivity | split; [reflexivity | split; [reflexivity | ]]].
  apply (below_threshold_rejected
           [(5, "4"); (4, "8.5"); (3, "01-07-2023");
            (2, "Signal Processing "); (1, "5AAA0")] 4%float);
    reflexivity.
Defined.

(** C7: a candidate whose grade or credits do not parse as a float is
    dropped without a trace: the iteration raises nothing, leaves the
    included courses and the totals as they were, and the loop goes on with
    the next candidate. *)
Theorem unparsable_candidate_skipped (m : captures) :
  ~ parses (group 4 m) \/ ~ parses (group 5 m) ->
  accept m = None /\
  (forall st, process_match m st = (Ok tt, st)) /\
  (forall before after st,
     for_each (before ++ m :: after) process_match st
       = for_each (before ++ after) process_match st).
Proof.
  intros P.
  assert (H : accept m = None).
  { unfold accept. destruct P as [P|P]; apply not_parses in P; rewrite P.
    - reflexivity.
    - destruct (py_float (group 4 m)); reflexivity. }
  split; [exact H | split].
  - intros st. rewrite process_match_accept, H. reflexivity.
  - apply rejected_skipped, H.
Qed.

Lemma NA_does_not_parse : ~ parses "NA".
Proof. intros [x H]. discriminate H. Qed.

Lemma unparsable_candidate_skipped_example :
  let m := [(5, "5"); (4, "NA"); (3, "01-07-2023");
            (2, "Signal Processing "); (1, "5AAA0")] in
  findall regular_pattern "5AAA0 Signal Processing 01-07-2023 NA 5" = [m] /\
  accept m = None /\
  process_match m init_state = (Ok tt, init_state).
Proof.
  split; [reflexivity|].
  destruct (unparsable_candidate_skipped
              [(5, "5"); (4, "NA"); (3, "01-07-2023");
               (2, "Signal Processing "); (1, "5AAA0")]
              (or_introl NA_does_not_parse)) as (H1 & H2 & _).
  split; [exact H1 | apply H2].
Defined.

(** ** Manual entries *)

(** C8: manual entries are included before any page is read and without any
    check: each adds grade x credits and credits to the totals and is
    appended to the included courses whatever its credits, while every
    course that comes from a page has passed the threshold. *)
Theorem manual_entries_bypass_filter
    (manual : list (course float)) (pages : list string) :
  (forall st name date grade credits,
     add_manual_courses [(name, date, grade, credits)] st =
       {| total_weighted_grades :=
            PrimFloat.add (total_weighted_grades st) (PrimFloat.mul grade credits);
          total_credits := PrimFloat.add (total_credits st) credits;
          total_ects := PrimFloat.add (total_ects st) credits;
          included_courses := (included_courses st ++ [(name, date, grade, credits)])%list |}) /\
  (forall st c, add_manual_courses (manual ++ [c])%list st
                = include_course (add_manual_courses manual st) c) /\
  included_courses (add_manual_courses manual init_state) = manual /\
  for_each pages process_page (add_manual_courses manual init_state)
    = (Ok tt, fold_left include_course (extracted pages)
                (add_manual_courses manual init_state)) /\
  included_courses
    (snd (for_each pages process_page (add_manual_courses manual init_state)))
    = (manual ++ extracted pages)%list /\
  Forall (fun c => ltb (credits_of c) 5%float = false) (extracted pages).
Proof.
  split; [reflexivity | split; [|split; [|split; [|split]]]].
  - intros st c. unfold add_manual_courses. rewrite fold_left_app. reflexivity.
  - unfold add_manual_courses. rewrite included_fold. reflexivity.
  - apply pages_extracted.
  - rewrite pages_extracted. cbn [snd]. unfold add_manual_courses.
    rewrite !included_fold. reflexivity.
  - apply extracted_threshold.
Qed.

(** ** The two credit totals *)

(** C10: [total_ects] and [total_credits] are equal at the start and stay
    equal through every update, so the ECTS total a report shows is the
    divisor its average was computed with (and, being positive there, also
    equal to it under the float comparison [==]). *)
Theorem total_ects_is_total_credits
    (manual : list (course float)) (pages : list string) :
  totals_agree (init_state (A := float)) /\
  (forall st c, totals_agree st -> totals_agree (include_course st c)) /\
  (forall st m, totals_agree st -> totals_agree (snd (process_match m st))) /\
  totals_agree
    (snd (for_each pages process_page (add_manual_courses manual init_state))) /\
  (forall ects gpa us,
     main manual pages = Report ects gpa us ->
     let st :=
       snd (for_each pages process_page (add_manual_courses manual init_state)) in
     ects = total_credits st /\
     PrimFloat.eqb ects (total_credits st) = true /\
     float_div (total_weighted_grades st) ects = Ok gpa).
Proof.
  assert (I : totals_agree
                (fold_left include_course (extracted pages)
                   (add_manual_courses manual (init_state (A := float))))).
  { apply totals_agree_fold. unfold add_manual_courses.
    apply totals_agree_fold. reflexivity. }
  split; [reflexivity | split; [|split; [|split]]].
  - intros st c. apply totals_agree_include.
  - intros st m H. rewrite process_match_accept. cbn [snd].
    destruct (accept m); [apply totals_agree_include|]; exact H.
  - rewrite pages_extracted. exact I.
  - intros ects gpa us. unfold main. rewrite pages_extracted. cbn [snd].
    unfold finalize, totals_agree in *.
    destruct (ltb _ _) eqn:L; [|discriminate].
    destruct (div _ _) as [g|] eqn:D; [|discriminate].
    intros [= <- <- _]. rewrite I. split; [reflexivity | split].
    + exact (ltb_eqb_refl _ _ L).
    + exact D.
Qed.

(** ** Order of the records *)

Section Exact.
Context {A : Type} {num : Number A}.
Hypothesis add_comm : forall x y : A, add x y = add y x.
Hypothesis add_assoc : forall x y z : A, add x (add y z) = add (add x y) z.

Lemma add_swap (t a b : A) : add (add t a) b = add (add t b) a.
Proof. rewrite <- !add_assoc, (add_comm a b). reflexivity. Qed.

Lemma same_totals_include (s t : state A) (c : course A) :
  same_totals s t -> same_totals (include_course s c) (include_course t c).
Proof.
  intros (H1 & H2 & H3). destruct c as [[[? ?] g] cr].
  unfold same_totals; simpl. rewrite H1, H2, H3. auto.
Qed.

Lemma same_totals_swap (s t : state A) (c d : course A) :
  same_totals s t ->
  same_totals (include_course (include_course s c) d)
              (include_course (include_course t d) c).
Proof.
  intros (H1 & H2 & H3).
  destruct c as [[[? ?] g] cr], d as [[[? ?] g'] cr'].
  unfold same_totals; simpl. rewrite H1, H2, H3.
  repeat split; apply add_swap.
Qed.

Lemma same_totals_fold (l : list (course A)) :
  forall s t, same_totals s t ->
    same_totals (fold_left include_course l s) (fold_left include_course l t).
Proof.
  induction l as [|c l IH]; intros s t H; [exact H|].
  cbn [fold_left]. apply IH, same_totals_include, H.
Qed.

Lemma same_totals_perm (l1 l2 : list (course A)) :
  Permutation l1 l2 ->
  forall s t, same_totals s t ->
    same_totals (fold_left include_course l1 s) (fold_left include_course l2 t).
Proof.
  induction 1 as [|c l1 l2 _ IH|c d l|l1 l2 l3 _ IH1 _ IH2]; intros s t H.
  - exact H.
  - cbn [fold_left]. apply IH, same_totals_include, H.
  - cbn [fold_left]. apply same_totals_fold, same_totals_swap, H.
  - destruct (IH1 s s) as (H1 & H2 & H3); [repeat split|].
    destruct (IH2 s t H) as (K1 & K2 & K3).
    unfold same_totals. rewrite H1, H2, H3. auto.
Qed.

Lemma finalize_same_totals (s t : state A) :
  same_totals s t -> finalize s = finalize t.
Proof.
  intros (H1 & H2 & H3). unfold finalize. rewrite H1, H2, H3. reflexivity.
Qed.

Lemma finalize_perm (st : state A) (l1 l2 : list (course A)) :
  Permutation l1 l2 ->
  finalize (fold_left include_course l1 st)
    = finalize (fold_left include_course l2 st).
Proof.
  intros P. apply finalize_same_totals, same_totals_perm; [exact P|].
  repeat split.
Qed.
End Exact.

(** C3 (as amended): in exact arithmetic the order of the records does not
    matter: folding any permutation of them gives the same report, with the
    same European and US averages. *)
Theorem fold_order_independent_exact (st : state Qc) (l1 l2 : list (course Qc)) :
  Permutation l1 l2 ->
  finalize (fold_left include_course l1 st)
    = finalize (fold_left include_course l2 st).
Proof.
  apply finalize_perm.
  - exact Qcplus_comm.
  - exact Qcplus_assoc.
Qed.

Lemma fold_order_independent_exact_example :
  let a := ("5AAA0 A", "01-07-2023", Q2Qc (97 # 10), Q2Qc 6) in
  let b := ("5AAA1 B", "01-07-2023", Q2Qc (76 # 10), Q2Qc 6) in
  Permutation [a; a; b] [a; b; a] /\
  finalize (fold_left include_course [a; a; b] init_state)
    = finalize (fold_left include_course [a; b; a] init_state).
Proof.
  intros a b. split.
  - apply perm_skip, perm_swap.
  - apply (fold_order_independent_exact init_state [a; a; b] [a; b; a]).
    apply perm_skip, perm_swap.
Defined.

(** C3 (as stated) fails in binary64: the same three records give a US
    average of 4.0 in one order and of 3.7 in another. *)
Lemma fold_order_dependent_binary64 :
  let a := ("5AAA0 A", "01-07-2023", 9.7%float, 6%float) in
  let b := ("5AAA1 B", "01-07-2023", 7.6%float, 6%float) in
  Permutation [a; a; b] [a; b; a] /\
  finalize (fold_left include_course [a; a; b] init_state)
    = Report 18%float 9%float 4.0%float /\
  finalize (fold_left include_course [a; b; a] init_state)
    = Report 18%float 8.9999999999999982%float 3.7%float /\
  finalize (fold_left include_course [a; a; b] init_state)
    <> finalize (fold_left include_course [a; b; a] init_state).
Proof.
  intros a b. split; [apply perm_skip, perm_swap|].
  split; [reflexivity | split; [reflexivity|]].
  vm_compute. discriminate.
Qed.

(** ** The whole run *)

(** every text in which a separator occurs is cut at its first occurrence *)
Lemma prefix_decompose (sep s : string) :
  prefix sep s = true -> exists post, s = sep ++ post.
Proof.
  revert s. induction sep as [|c sep IH]; intros s; [exists s; reflexivity|].
  destruct s as [|a s]; [discriminate|]. cbn [prefix].
  destruct (ascii_dec c a) as [->|]; [|discriminate].
  intros H. destruct (IH _ H) as [post ->]. exists post. reflexivity.
Qed.

Lemma find_decompose (sep s : string) (n : nat) :
  find sep s = Some n ->
  exists pre post, s = pre ++ sep ++ post /\ length pre = n.
Proof.
  revert n. induction s as [|a s IH]; intros n; cbn [find].
  - destruct (prefix sep "") eqn:P; [|discriminate].
    intros [= <-]. destruct (prefix_decompose _ _ P) as [post E].
    exists "", post. split; [exact E | reflexivity].
  - destruct (prefix sep (String a s)) eqn:P.
    + intros [= <-]. destruct (prefix_decompose _ _ P) as [post E].
      exists "", post. split; [exact E | reflexivity].
    + destruct (find sep s) as [k|]; [|discriminate].
      intros [= <-]. destruct (IH k eq_refl) as (pre & post & -> & <-).
      exists (String a pre), post. split; reflexivity.
Qed.

(** X1: nothing the script does with the page texts raises an exception *)
Lemma main_never_faults (manual : list (course float)) (pages : list string)
    (e : exn) :
  main manual pages <> Fault e.
Proof.
  unfold main. rewrite pages_extracted. apply finalize_never_faults.
Qed.

(** the scenarios of the specification *)

Example scenario_A :
  main [] ["5AAA0 Signal Processing 01-07-2023 8.5 5"]
    = Report 5%float 8.5%float 3.7%float.
Proof. reflexivity. Qed.

Example scenario_B :
  main [] ["5AAA0 Signal Processing 01-07-2023 8.5 4"] = NoData.
Proof. reflexivity. Qed.

Example scenario_C :
  main [] ["5AAA0 Signal Processing 01-07-2023 NA 5"] = NoData.
Proof. reflexivity. Qed.

Example scenario_D :
  main [] ["5AAA0 Signal Processing 01-07-2023 6.0 5
5BBB0 Control Systems 02-07-2023 8.0 10"]
    = Report 15%float (PrimFloat.div 110 15) 3.0%float.
Proof. reflexivity. Qed.

Example scenario_E :
  main [("Thesis", "01-01-2024", 10.0%float, 3.0%float)]
       ["5AAA0 Signal Processing 01-07-2023 6.0 5"]
    = Report 8%float 7.5%float 3.0%float.
Proof. reflexivity. Qed.

(** the same three course lines in two orders: the US figure changes *)
Example course_order_changes_us_gpa :
  main [] ["5AAA0 A 01-07-2023 9.7 6 5AAA1 B 01-07-2023 9.7 6 5AAA2 C 01-07-2023 7.6 6"]
    = Report 18%float 9%float 4.0%float /\
  main [] ["5AAA0 A 01-07-2023 9.7 6 5AAA2 C 01-07-2023 7.6 6 5AAA1 B 01-07-2023 9.7 6"]
    = Report 18%float 8.9999999999999982%float 3.7%float.
Proof. split; reflexivity. Qed.

(** ** What a match captures *)

Lemma substring_prefix (w t : string) : substring 0 (length w) (w ++ t) = w.
Proof.
  induction w as [|a w IH]; simpl.
  - destruct t; reflexivity.
  - rewrite IH. reflexivity.
Qed.

Lemma consumed_append (w t : string) : consumed (w ++ t) t = w.
Proof.
  unfold consumed. rewrite length_append, Nat.add_sub. apply substring_prefix.
Qed.

(** the matcher is sound for the groups it records too *)
Lemma exec_run {R : Type} (r : regex) (res : R) :
  forall s g (k : string -> captures -> option R),
    exec r s g k = Some res ->
    exists w t g', s = w ++ t /\ run r w g g' /\ k t g' = Some res.
Proof.
  induction r as [cs|cs lo hi greedy|r1 IH1 r2 IH2|r1 IH1 r2 IH2|n r1 IH1];
    intros s g k; cbn [exec].
  - destruct s as [|a s]; [discriminate|].
    destruct (cset_mem cs a) eqn:E; [|discriminate]. intros H.
    exists (String a ""), s, g. repeat split; auto. constructor. exact E.
  - intros H.
    assert (exists w t, s = w ++ t /\ all_in cs w = true /\ lo <= length w /\
              within hi (length w) /\ k t g = Some res) as
      (w & t & -> & Hw & Hlo & Hhi & Hk).
    { destruct greedy;
        [ apply (repeat_greedy_sound cs (fun s' => k s' g)) in H
        | apply (repeat_lazy_sound cs (fun s' => k s' g)) in H ]; exact H. }
    exists w, t, g. repeat split; auto. constructor; assumption.
  - intros H. apply IH1 in H as (w1 & t1 & g1 & -> & M1 & H).
    apply IH2 in H as (w2 & t2 & g2 & -> & M2 & H).
    exists (w1 ++ w2), t2, g2. rewrite append_assoc.
    repeat split; auto. econstructor; eassumption.
  - destruct (exec r1 s g k) as [x|] eqn:E1.
    + intros [= <-]. apply IH1 in E1 as (w & t & g' & -> & M1 & H).
      exists w, t, g'. repeat split; auto. apply run_alt_l, M1.
    + intros H. apply IH2 in H as (w & t & g' & -> & M2 & H).
      exists w, t, g'. repeat split; auto. apply run_alt_r, M2.
  - intros H. apply IH1 in H as (w & t & g' & -> & M1 & H).
    rewrite consumed_append in H.
    exists w, t, ((n, w) :: g'). repeat split; auto. constructor. exact M1.
Qed.

Lemma match_here_run (r : regex) (s rest : string) (g : captures) :
  match_here r s = Some (rest, g) -> exists w, s = w ++ rest /\ run r w [] g.
Proof.
  unfold match_here. intros H.
  apply exec_run in H as (w & t & g' & -> & M & [= -> ->]).
  exists w. split; [reflexivity | exact M].
Qed.

(** every element of [findall] is the groups of a match somewhere in the text *)
Lemma findall_from_run (r : regex) (g : captures) :
  forall s skip,
    In g (findall_from r skip s) ->
    exists u w rest, s = u ++ w ++ rest /\ run r w [] g.
Proof.
  assert (tl : forall a s,
    (exists u w rest, s = u ++ w ++ rest /\ run r w [] g) ->
    exists u w rest, String a s = u ++ w ++ rest /\ run r w [] g).
  { intros a s (u & w & rest & -> & M). exists (String a u), w, rest. auto. }
  induction s as [|a s IH]; intros skip.
  - destruct skip; cbn [findall_from]; [|intros []].
    destruct (match_here r "") as [[rest g']|] eqn:E; [|intros []].
    intros [<-|[]]. apply match_here_run in E as (w & E & M).
    exists "", w, rest. auto.
  - destruct skip; cbn [findall_from]; [|intros H; apply tl, (IH _ H)].
    destruct (match_here r (String a s)) as [[rest g']|] eqn:E.
    + intros [<-|H]; [|apply tl, (IH _ H)].
      apply match_here_run in E as (w & E & M). exists "", w, rest. auto.
    + intros H. apply tl, (IH _ H).
Qed.

(** ** The shape of a candidate *)

Ltac inv_run :=
  repeat match goal with
  | H : run (Seq _ _) _ _ _ |- _ => inversion H; subst; clear H
  | H : run (Group _ _) _ _ _ |- _ => inversion H; subst; clear H
  | H : run (Alt _ _) _ _ _ |- _ => inversion H; subst; clear H
  | H : run (Repeat _ _ _ _) _ _ _ |- _ => inversion H; subst; clear H
  | H : run (One _) _ _ _ |- _ => inversion H; subst; clear H
  end.

Lemma dash_is (a : ascii) : cset_mem (Chr "-") a = true -> a = "-"%char.
Proof. cbn [cset_mem]. intros H. apply Ascii.eqb_eq in H. congruence. Qed.

Lemma point_is (a : ascii) : cset_mem (Chr ".") a = true -> a = "."%char.
Proof. cbn [cset_mem]. intros H. apply Ascii.eqb_eq in H. congruence. Qed.

Lemma regular_pattern_run (w : string) (g : captures) :
  run regular_pattern w [] g ->
  exists code name date grade credits,
    g = [(5, credits); (4, grade); (3, date); (2, name); (1, code)] /\
    all_in alnum code = true /\ 5 <= length code /\
    all_in Dot name = true /\
    is_date date /\
    all_in grade_chars grade = true /\ 1 <= length grade /\
    is_decimal credits.
Proof.
  unfold regular_pattern. intros H. inv_run;
    repeat match goal with
    | H : cset_mem (Chr "-") _ = true |- _ => apply dash_is in H; subst
    | H : cset_mem (Chr ".") _ = true |- _ => apply point_is in H; subst
    end;
    (do 5 eexists; split; [reflexivity|]; repeat split; try assumption).
  all: try (unfold is_date; do 3 eexists; split; [reflexivity|];
            cbn [within] in *; repeat split; try assumption; lia).
  - right. do 2 eexists. split; [reflexivity|]. repeat split; assumption.
  - left. split; assumption.
Qed.

(** ** [float] on the tokens of a candidate *)

Lemma grade_char_plain (a : ascii) :
  cset_mem grade_chars a = true ->
  is_float_space a = false /\ Ascii.eqb a "_" = false.
Proof.
  destruct a as [[] [] [] [] [] [] [] []]; vm_compute; intros H;
    try discriminate H; split; reflexivity.
Qed.

Lemma digit_grade_char (a : ascii) :
  cset_mem Digit a = true -> cset_mem grade_chars a = true.
Proof.
  destruct a as [[] [] [] [] [] [] [] []]; vm_compute; intros H;
    try discriminate H; reflexivity.
Qed.

Lemma digit_first (a : ascii) (s : string) :
  cset_mem Digit a = true ->
  sign_of (String a s) = (false, String a s) /\
  Ascii.eqb (lower a) "i" = false /\ Ascii.eqb (lower a) "n" = false.
Proof.
  destruct a as [[] [] [] [] [] [] [] []]; vm_compute; intros H;
    try discriminate H; repeat split; reflexivity.
Qed.

Lemma all_in_append (cs : cset) (u v : string) :
  all_in cs (u ++ v) = all_in cs u && all_in cs v.
Proof.
  induction u as [|a u IH]; simpl; [reflexivity|].
  rewrite IH. apply andb_assoc.
Qed.

Lemma all_in_digit_grade (w : string) :
  all_in Digit w = true -> all_in grade_chars w = true.
Proof.
  induction w as [|a w IH]; [reflexivity|]. cbn [all_in].
  intros H. apply andb_prop in H as [Ha Hw].
  rewrite (digit_grade_char _ Ha), (IH Hw). reflexivity.
Qed.

Lemma decimal_grade_chars (s : string) :
  is_decimal s -> all_in grade_chars s = true.
Proof.
  intros [[H _]|(i & f & -> & Hi & _ & Hf & _)].
  - apply all_in_digit_grade, H.
  - rewrite all_in_append, (all_in_digit_grade _ Hi). cbn [append all_in].
    rewrite (all_in_digit_grade _ Hf). reflexivity.
Qed.

Lemma rstrip_plain (s : string) :
  all_in grade_chars s = true -> rstrip s = s.
Proof.
  induction s as [|a s IH]; [reflexivity|]. cbn [all_in rstrip].
  intros H. apply andb_prop in H as [Ha Hs]. rewrite (IH Hs).
  destruct (grade_char_plain _ Ha) as [-> _]. destruct s; reflexivity.
Qed.

Lemma strip_plain (s : string) :
  all_in grade_chars s = true -> strip s = s.
Proof.
  intros H. unfold strip.
  assert (E : lstrip s = s).
  { destruct s as [|a s]; [reflexivity|]. cbn [all_in lstrip] in *.
    apply andb_prop in H as [Ha _].
    destruct (grade_char_plain _ Ha) as [-> _]. reflexivity. }
  rewrite E. apply rstrip_plain, H.
Qed.

Lemma drop_underscores_plain (s : string) :
  forall prev,
    Ascii.eqb prev "_" = false ->
    all_in grade_chars s = true -> drop_underscores prev s = Some s.
Proof.
  induction s as [|a s IH]; intros prev P H; cbn [drop_underscores].
  - rewrite P. reflexivity.
  - cbn [all_in] in H. apply andb_prop in H as [Ha Hs].
    destruct (grade_char_plain _ Ha) as [_ U].
    rewrite U, P. cbn [andb]. rewrite (IH a U Hs). reflexivity.
Qed.

(** on a token of the grade or credits class, [float] reads the token as it
    stands: nothing is stripped and no underscore is dropped *)
Lemma py_float_token (s : string) :
  all_in grade_chars s = true ->
  py_float s =
    let '(neg, u) := sign_of s in
    let l := lowercase u in
    if String.eqb l "inf" || String.eqb l "infinity"
    then Ok (if neg then neg_infinity else infinity)
    else if String.eqb l "nan" then Ok nan
    else match parse_decimal u with
         | Some (m, e) => Ok (round_decimal neg m e)
         | None => Raise ValueError
         end.
Proof.
  intros H. unfold py_float.
  rewrite (strip_plain _ H), (drop_underscores_plain _ " "%char eq_refl H).
  reflexivity.
Qed.

Lemma digits_run (w : string) :
  forall acc n rest,
    all_in Digit w = true -> stops Digit rest ->
    exists v, digits (w ++ rest) acc n = (v, n + length w, rest).
Proof.
  induction w as [|a w IH]; intros acc n rest Hw Hr.
  - exists acc. rewrite Nat.add_0_r. cbn [append].
    destruct rest as [|c r]; [reflexivity|].
    cbn [digits]. cbn [stops cset_mem] in Hr. rewrite Hr. reflexivity.
  - cbn [all_in cset_mem] in Hw. apply andb_prop in Hw as [Ha Hw].
    cbn [append digits length]. rewrite Ha.
    destruct (IH (10 * acc + digit_value a)%Z (S n) rest Hw Hr) as [v E].
    exists v. rewrite E, Nat.add_succ_r. reflexivity.
Qed.

Lemma parse_decimal_decimal (s : string) :
  is_decimal s -> exists m e, parse_decimal s = Some (m, e).
Proof.
  intros [[H L]|(i & f & -> & Hi & Li & Hf & Lf)]; unfold parse_decimal.
  - destruct (digits_run s 0%Z 0 "" H I) as [v E].
    rewrite append_nil_r in E. rewrite E. cbn [Nat.add].
    destruct (length s); [lia|]. cbn. eauto.
  - destruct (digits_run i 0%Z 0 (String "." f) Hi eq_refl) as [v E].
    cbn [append]. rewrite E.
    destruct (digits_run f v 0 "" Hf I) as [v' E'].
    rewrite append_nil_r in E'. rewrite E'. cbn [Nat.add].
    destruct (length i); [lia|]. cbn. eauto.
Qed.

(** digits, with or without a fraction, always convert *)
Lemma py_float_decimal (s : string) : is_decimal s -> parses s.
Proof.
  intros D. unfold parses. rewrite (py_float_token _ (decimal_grade_chars _ D)).
  destruct (parse_decimal_decimal _ D) as (m & e & P).
  assert (exists a s', s = String a s' /\ cset_mem Digit a = true)
    as (a & s' & -> & Ha).
  { destruct D as [[H L]|(i & f & -> & Hi & Li & _)].
    - destruct s as [|a s']; [cbn in L; lia|].
      cbn [all_in] in H. apply andb_prop in H as [Ha _]. eauto.
    - destruct i as [|a i']; [cbn in Li; lia|].
      cbn [all_in] in Hi. apply andb_prop in Hi as [Ha _].
      exists a, (i' ++ "." ++ f). auto. }
  destruct (digit_first a s' Ha) as (-> & Ei & En).
  cbn [lowercase String.eqb]. rewrite Ei, En. cbn [andb orb].
  rewrite P. eauto.
Qed.

(** ** Candidates and included courses *)

Lemma findall_run (text : string) (m : captures) :
  In m (findall regular_pattern text) ->
  exists u w rest, text = u ++ w ++ rest /\ run regular_pattern w [] m.
Proof. apply findall_from_run. Qed.

(** X2: Every candidate the course pattern finds has a code of five or more
    letters and digits, a name without a newline, a date made of two, two and
    four digits with hyphens between, a grade token of letters, digits and
    points, and credits written as digits with an optional fraction. *)
Theorem candidate_shape (text : string) (m : captures) :
  In m (findall regular_pattern text) ->
  all_in alnum (group 1 m) = true /\ 5 <= length (group 1 m) /\
  all_in Dot (group 2 m) = true /\
  is_date (group 3 m) /\
  all_in grade_chars (group 4 m) = true /\ 1 <= length (group 4 m) /\
  is_decimal (group 5 m).
Proof.
  intros H. apply findall_run in H as (u & w & rest & _ & R).
  apply regular_pattern_run in R
    as (code & name & date & grade & credits & -> & H).
  exact H.
Qed.

Lemma candidate_shape_example :
  let m := [(5, "5"); (4, "8.5"); (3, "01-07-2023");
            (2, "Signal Processing "); (1, "5AAA0")] in
  In m (findall regular_pattern "5AAA0 Signal Processing 01-07-2023 8.5 5") /\
  is_date (group 3 m) /\ is_decimal (group 5 m).
Proof.
  intros m.
  assert (H : In m (findall regular_pattern
                      "5AAA0 Signal Processing 01-07-2023 8.5 5"))
    by (left; reflexivity).
  split; [exact H|].
  destruct (candidate_shape _ m H) as (_ & _ & _ & D & _ & _ & C).
  split; [exact D | exact C].
Defined.

(** X3: The credits of a candidate always convert to a number, so a candidate is
    dropped for exactly two reasons, a grade that is not a number or credits
    below 5; any other candidate is included, whatever its grade. *)
Theorem candidate_dropped_or_included (text : string) (m : captures) :
  In m (findall regular_pattern text) ->
  exists credits,
    py_float (group 5 m) = Ok credits /\
    (~ parses (group 4 m) \/ ltb credits 5%float = true ->
     forall st, process_match m st = (Ok tt, st)) /\
    (forall grade,
       py_float (group 4 m) = Ok grade -> ltb credits 5%float = false ->
       forall st,
         process_match m st =
           (Ok tt,
            include_course st
              (group 1 m ++ " " ++ group 2 m, group 3 m, grade, credits))).
Proof.
  intros H. apply findall_run in H as (u & w & rest & _ & R).
  apply regular_pattern_run in R
    as (code & name & date & grade & credits & -> & H).
  destruct H as (_ & _ & _ & _ & _ & _ & D).
  destruct (py_float_decimal _ D) as [c Pc]. cbn [group Nat.eqb] in Pc.
  exists c. split; [exact Pc | split].
  - intros Hd st. rewrite process_match_accept. unfold accept.
    cbn [group Nat.eqb]. rewrite Pc.
    destruct Hd as [Hg|Hc].
    + apply not_parses in Hg. cbn [group Nat.eqb] in Hg. rewrite Hg.
      reflexivity.
    + rewrite Hc. destruct (py_float grade); reflexivity.
  - intros g Pg Hc st. rewrite process_match_accept. unfold accept.
    cbn [group Nat.eqb] in *. rewrite Pg, Pc, Hc. reflexivity.
Qed.

Lemma candidate_dropped_or_included_example :
  let m := [(5, "5"); (4, "8.5"); (3, "01-07-2023");
            (2, "Signal Processing "); (1, "5AAA0")] in
  In m (findall regular_pattern "5AAA0 Signal Processing 01-07-2023 8.5 5") /\
  exists credits, py_float (group 5 m) = Ok credits.
Proof.
  intros m.
  assert (H : In m (findall regular_pattern
                      "5AAA0 Signal Processing 01-07-2023 8.5 5"))
    by (left; reflexivity).
  split; [exact H|].
  destruct (candidate_dropped_or_included _ m H) as (c & P & _).
  exists c. exact P.
Defined.

Lemma accepted_in (ms : list captures) (c : course float) :
  In c (accepted ms) -> exists m, In m ms /\ accept m = Some c.
Proof.
  unfold accepted. intros H. apply in_flat_map in H as (m & Hm & Hc).
  exists m. split; [exact Hm|].
  destruct (accept m) as [c'|]; [|destruct Hc].
  destruct Hc as [<-|[]]. reflexivity.
Qed.

Lemma extracted_in (pages : list string) (c : course float) :
  In c (extracted pages) ->
  exists raw m,
    In raw pages /\
    In m (findall regular_pattern (section_of (preprocess_text raw))) /\
    accept m = Some c.
Proof.
  unfold extracted. intros H. apply in_flat_map in H as (raw & Hr & Hc).
  apply accepted_in in Hc as (m & Hm & Ha). eauto.
Qed.

Lemma accept_fields (m : captures) (c : course float) :
  accept m = Some c ->
  name_of c = group 1 m ++ " " ++ group 2 m /\ date_of c = group 3 m /\
  py_float (group 4 m) = Ok (grade_of c) /\
  py_float (group 5 m) = Ok (credits_of c) /\
  ltb (credits_of c) 5%float = false.
Proof.
  unfold accept.
  destruct (py_float (group 4 m)) as [g|]; [|discriminate].
  destruct (py_float (group 5 m)) as [cr|]; [|discriminate].
  destruct (ltb cr 5%float) eqn:L; [discriminate|].
  intros [= <-]. repeat split. exact L.
Qed.

(** X4: Every course a run has included is a manual entry or comes from a
    candidate on a page: its identifier then is a code of five or more
    letters and digits, a space and the name; its date is made of two, two
    and four digits (not checked to be a calendar date); and its credits are
    not below 5. *)
Theorem included_courses_wellformed
    (manual : list (course float)) (pages : list string) (c : course float) :
  In c (included_courses
          (snd (for_each pages process_page
                  (add_manual_courses manual init_state)))) ->
  In c manual \/
  (exists code name,
     name_of c = code ++ " " ++ name /\
     all_in alnum code = true /\ 5 <= length code /\
     all_in Dot name = true) /\
  is_date (date_of c) /\
  ltb (credits_of c) 5%float = false.
Proof.
  rewrite pages_extracted. cbn [snd]. unfold add_manual_courses.
  rewrite !included_fold. cbn [included_courses init_state app].
  intros H. apply in_app_or in H as [H|H]; [left; exact H | right].
  apply extracted_in in H as (raw & m & _ & Hm & Ha).
  apply accept_fields in Ha as (En & Ed & _ & _ & L).
  apply findall_run in Hm as (u & w & rest & _ & R).
  apply regular_pattern_run in R
    as (code & name & date & grade & credits & -> & A1 & L1 & A2 & D & _).
  cbn [group Nat.eqb] in En, Ed. rewrite En, Ed.
  split; [|split; [exact D | exact L]].
  exists code, name. auto.
Qed.

(** ** Substitution, match by match *)

Lemma sub_from_skip (r : regex) (tpl : list tpl_item) (u t : string) :
  sub_from r tpl (length u) (u ++ t) = sub_from r tpl 0 t.
Proof. induction u as [|a u IH]; [reflexivity | exact IH]. Qed.

(** a match is replaced by its expansion, and the scan goes on after it *)
Lemma sub_match (r : regex) (tpl : list tpl_item) (a : ascii) (w rest : string)
    (g : captures) :
  match_here r (String a w ++ rest) = Some (rest, g) ->
  sub r tpl (String a w ++ rest) = expand tpl g ++ sub r tpl rest.
Proof.
  intros H. unfold sub. cbn [append] in *. cbn [sub_from]. rewrite H.
  cbn [length]. rewrite length_append.
  replace (S (length w + length rest) - length rest) with (S (length w)) by lia.
  rewrite sub_from_skip. reflexivity.
Qed.

Lemma sub_step (r : regex) (tpl : list tpl_item) (a : ascii) (s : string) :
  match_here r (String a s) = None ->
  sub r tpl (String a s) = String a (sub r tpl s).
Proof. intros H. unfold sub. cbn [sub_from]. rewrite H. reflexivity. Qed.

Lemma filter_chars_append (keep : ascii -> bool) (u v : string) :
  filter_chars keep (u ++ v) = filter_chars keep u ++ filter_chars keep v.
Proof.
  induction u as [|a u IH]; [reflexivity|]. cbn [append filter_chars].
  rewrite IH. destruct (keep a); reflexivity.
Qed.

Section SubFilter.
Variable keep : ascii -> bool.
Variable r : regex.
Variable tpl : list tpl_item.
Hypothesis replaced :
  forall s rest g,
    match_here r s = Some (rest, g) ->
    exists a w,
      s = String a w ++ rest /\
      filter_chars keep (expand tpl g) = filter_chars keep (String a w).

(** when every replacement keeps the characters that [keep] selects, so does
    the substitution *)
Lemma sub_filter (s : string) :
  filter_chars keep (sub r tpl s) = filter_chars keep s.
Proof.
  remember (length s) as n eqn:L.
  assert (B : length s <= n) by lia. clear L. revert s B.
  induction n as [|n IH]; intros s B.
  - destruct s; [|cbn in B; lia]. unfold sub. cbn [sub_from].
    destruct (match_here r "") as [[rest g]|] eqn:E; [|reflexivity].
    destruct (replaced _ _ _ E) as (a & w & E' & _). discriminate E'.
  - destruct s as [|a s].
    + unfold sub. cbn [sub_from].
      destruct (match_here r "") as [[rest g]|] eqn:E; [|reflexivity].
      destruct (replaced _ _ _ E) as (a & w & E' & _). discriminate E'.
    + destruct (match_here r (String a s)) as [[rest g]|] eqn:E.
      * destruct (replaced _ _ _ E) as (b & w & E' & F).
        rewrite E' in E |- *. rewrite (sub_match _ _ _ _ _ _ E).
        rewrite !filter_chars_append, F. f_equal. apply IH.
        apply (f_equal length) in E'. cbn [length append] in *.
        rewrite length_append in E'. lia.
      * rewrite (sub_step _ _ _ _ E). cbn [filter_chars].
        rewrite (IH s) by (cbn in B; lia). reflexivity.
Qed.
End SubFilter.

(** ** What the three passes match *)

Lemma hyphen_break_match (s rest : string) (g : captures) :
  match_here hyphen_break s = Some (rest, g) ->
  exists w1 w2,
    s = (w1 ++ "-" ++ String newline w2) ++ rest /\
    all_in Word w1 = true /\ 1 <= length w1 /\
    all_in Word w2 = true /\ 1 <= length w2 /\
    g = [(2, w2); (1, w1)].
Proof.
  intros H. apply match_here_run in H as (w & -> & R).
  unfold hyphen_break in R. inv_run.
  repeat match goal with
  | H : cset_mem (Chr _) _ = true |- _ =>
      cbn [cset_mem] in H; apply Ascii.eqb_eq in H; subst
  end.
  do 2 eexists. split; [reflexivity|]. repeat split; assumption.
Qed.

Lemma line_break_match (s rest : string) (g : captures) :
  match_here line_break s = Some (rest, g) ->
  s = String newline rest /\ g = [].
Proof.
  intros H. apply match_here_run in H as (w & -> & R).
  unfold line_break in R. inv_run.
  match goal with
  | H : cset_mem (Chr _) _ = true |- _ =>
      cbn [cset_mem] in H; apply Ascii.eqb_eq in H; subst
  end.
  split; reflexivity.
Qed.

Lemma code_then_letter_match (s rest : string) (g : captures) :
  match_here code_then_letter s = Some (rest, g) ->
  exists d w a,
    s = String d (w ++ String a "") ++ rest /\
    cset_mem Digit d = true /\
    all_in Word w = true /\ 4 <= length w /\
    cset_mem letter a = true /\
    g = [(2, String a ""); (1, String d w)].
Proof.
  intros H. apply match_here_run in H as (w & -> & R).
  unfold code_then_letter in R. inv_run.
  do 3 eexists. split; [reflexivity|]. repeat split; assumption.
Qed.

(** ** What [preprocess_text] keeps and what it removes *)

(** X5: All that [preprocess_text] removes or inserts is hyphens, newlines and
    spaces: every other character of the page is kept, in order. *)
Theorem preprocess_text_keeps_solid (text : string) :
  filter_chars is_solid (preprocess_text text) = filter_chars is_solid text.
Proof.
  unfold preprocess_text.
  rewrite sub_filter, sub_filter, sub_filter; [reflexivity| | |].
  - intros s rest g H.
    apply hyphen_break_match in H as (w1 & w2 & -> & H1 & L1 & H2 & L2 & ->).
    destruct w1 as [|a w1]; [cbn in L1; lia|].
    exists a, (w1 ++ "-" ++ String newline w2). split; [reflexivity|].
    cbn [expand group Nat.eqb].
    change (String a (w1 ++ "-" ++ String newline w2))
      with (String a w1 ++ "-" ++ String newline w2).
    rewrite !filter_chars_append. cbn [filter_chars].
    change (is_solid "-") with false. change (is_solid newline) with false.
    cbn [append]. rewrite append_nil_r. reflexivity.
  - intros s rest g H. apply line_break_match in H as [-> ->].
    exists newline, "". split; reflexivity.
  - intros s rest g H.
    apply code_then_letter_match in H
      as (d & w & a & -> & Hd & Hw & Lw & Ha & ->).
    exists d, (w ++ String a ""). split; [reflexivity|].
    cbn [expand group Nat.eqb].
    change (String d (w ++ String a "")) with (String d w ++ String a "").
    rewrite !filter_chars_append.
    change (filter_chars is_solid " ") with "".
    change (filter_chars is_solid "") with "".
    cbn [append]. rewrite append_nil_r. reflexivity.
Qed.

Lemma no_newline_filter (s : string) :
  contains newline_str s = false <-> filter_chars is_newline s = "".
Proof.
  induction s as [|a s IH]; [split; reflexivity|]. split.
  - intros H. apply no_newline_tail in H as [N H]. cbn [filter_chars].
    unfold is_newline. destruct (Ascii.eqb_spec a newline); [congruence|].
    apply IH, H.
  - cbn [filter_chars]. unfold is_newline.
    destruct (Ascii.eqb_spec a newline) as [->|N]; [discriminate|].
    intros H. apply IH in H. revert H.
    unfold contains, newline_str. cbn [find prefix].
    destruct (ascii_dec newline a); [congruence|].
    destruct (find (String newline "") s); [discriminate | reflexivity].
Qed.

Lemma line_break_here (a : ascii) (s : string) :
  match_here line_break (String a s)
    = if Ascii.eqb newline a then Some (s, []) else None.
Proof. reflexivity. Qed.

Lemma sub_line_break_no_newline (s : string) :
  filter_chars is_newline (sub line_break [TText " "] s) = "".
Proof.
  induction s as [|a s IH]; [reflexivity|].
  destruct (Ascii.eqb newline a) eqn:E.
  - pose proof (line_break_here a s) as H. rewrite E in H.
    change (String a s) with (String a "" ++ s).
    rewrite (sub_match line_break [TText " "] a "" s [] H).
    cbn [expand]. rewrite !filter_chars_append, IH. reflexivity.
  - pose proof (line_break_here a s) as H. rewrite E in H.
    rewrite (sub_step _ _ _ _ H). cbn [filter_chars].
    unfold is_newline. rewrite Ascii.eqb_sym, E. exact IH.
Qed.

(** X6: The text [preprocess_text] returns never holds a newline. *)
Theorem preprocess_text_no_newline (text : string) :
  contains newline_str (preprocess_text text) = false.
Proof.
  apply no_newline_filter. unfold preprocess_text.
  rewrite sub_filter; [apply sub_line_break_no_newline|].
  intros s rest g H.
  apply code_then_letter_match in H
    as (d & w & a & -> & Hd & Hw & Lw & Ha & ->).
  exists d, (w ++ String a ""). split; [reflexivity|].
  cbn [expand group Nat.eqb].
  change (String d (w ++ String a "")) with (String d w ++ String a "").
  rewrite !filter_chars_append.
  change (filter_chars is_newline " ") with "".
  change (filter_chars is_newline "") with "".
  cbn [append]. rewrite append_nil_r. reflexivity.
Qed.

(** ** Greedy repetition *)

Section Greedy.
Context {R : Type}.
Variable cs : cset.
Variable k : string -> option R.

(** with nothing more of the class to read, the longest run is tried first *)
Lemma repeat_greedy_longest (w t : string) (res : R) :
  forall lo,
    all_in cs w = true -> stops cs t -> lo <= length w -> k t = Some res ->
    repeat_greedy cs lo None k (w ++ t) = Some res.
Proof.
  induction w as [|a w IH]; intros lo Hw Ht L K.
  - cbn [length] in L. replace lo with 0 by lia. cbn [append].
    destruct t as [|c t]; cbn [repeat_greedy Nat.eqb]; [exact K|].
    cbn [stops] in Ht. rewrite Ht. exact K.
  - cbn [all_in] in Hw. apply andb_prop in Hw as [Ha Hw].
    cbn [append repeat_greedy more less option_map]. rewrite Ha. cbn [andb].
    rewrite (IH (pred lo) Hw Ht); [reflexivity | cbn in L; lia | exact K].
Qed.

(** when the continuation fails after the longest run, one character is
    given back *)
Lemma repeat_greedy_back (w t : string) (a : ascii) (res : R) :
  forall lo,
    all_in cs w = true -> cset_mem cs a = true -> stops cs t ->
    lo <= length w -> k t = None -> k (String a t) = Some res ->
    repeat_greedy cs lo None k (w ++ String a t) = Some res.
Proof.
  induction w as [|b w IH]; intros lo Hw Ha Ht L K0 K1.
  - cbn [length] in L. replace lo with 0 by lia.
    cbn [append repeat_greedy more less option_map pred Nat.eqb].
    rewrite Ha. cbn [andb].
    replace (repeat_greedy cs 0 None k t) with (@None R); [exact K1|].
    destruct t as [|c t]; cbn [repeat_greedy Nat.eqb]; [congruence|].
    cbn [stops] in Ht. rewrite Ht. cbn [andb]. congruence.
  - cbn [all_in] in Hw. apply andb_prop in Hw as [Hb Hw].
    cbn [append repeat_greedy more less option_map]. rewrite Hb. cbn [andb].
    rewrite (IH (pred lo) Hw Ha Ht); [reflexivity | cbn in L; lia | | ];
      assumption.
Qed.
End Greedy.

(** ** The passes at work *)

Lemma word_no_newline (w : string) :
  all_in Word w = true -> filter_chars is_newline w = "".
Proof.
  induction w as [|a w IH]; [reflexivity|]. cbn [all_in filter_chars].
  intros H. apply andb_prop in H as [Ha Hw]. rewrite (IH Hw).
  replace (is_newline a) with false; [reflexivity|].
  revert Ha. clear. destruct a as [[] [] [] [] [] [] [] []]; vm_compute;
    intros H; try discriminate H; reflexivity.
Qed.

Lemma letter_word (a : ascii) :
  cset_mem letter a = true -> cset_mem Word a = true.
Proof.
  destruct a as [[] [] [] [] [] [] [] []]; vm_compute; intros H;
    try discriminate H; reflexivity.
Qed.

Lemma digit_no_newline (d : ascii) :
  cset_mem Digit d = true -> is_newline d = false.
Proof.
  destruct d as [[] [] [] [] [] [] [] []]; vm_compute; intros H;
    try discriminate H; reflexivity.
Qed.

Lemma letter_no_newline (a : ascii) :
  cset_mem letter a = true -> is_newline a = false.
Proof.
  destruct a as [[] [] [] [] [] [] [] []]; vm_compute; intros H;
    try discriminate H; reflexivity.
Qed.

(** without a newline only the third pass can change the text *)
Lemma preprocess_text_no_newline_input (x : string) :
  filter_chars is_newline x = "" ->
  preprocess_text x = sub code_then_letter [TGroup 1; TText " "; TGroup 2] x.
Proof.
  intros H. apply no_newline_filter in H. unfold preprocess_text.
  rewrite (sub_no_match _ _ _ (no_newline_no_hyphen_break _ H)).
  rewrite (sub_no_match _ _ _ (no_newline_no_line_break _ H)).
  reflexivity.
Qed.

Lemma hyphen_break_here (w1 w2 t : string) :
  all_in Word w1 = true -> 1 <= length w1 ->
  all_in Word w2 = true -> 1 <= length w2 ->
  stops Word t ->
  match_here hyphen_break (w1 ++ String "-" (String newline (w2 ++ t)))
    = Some (t, [(2, w2); (1, w1)]).
Proof.
  intros H1 L1 H2 L2 Ht. unfold match_here, hyphen_break. cbn [exec].
  apply repeat_greedy_longest; [exact H1 | reflexivity | exact L1 |].
  cbn [exec cset_mem]. rewrite !Ascii.eqb_refl.
  apply repeat_greedy_longest; [exact H2 | exact Ht | exact L2 |].
  rewrite !consumed_append. reflexivity.
Qed.

(** X7: A word broken by a hyphen at the end of a line is read as if it had
    never been broken: the hyphen and the newline go, and the rest of the
    normalisation sees the joined word. *)
Theorem dehyphenation_joins (w1 w2 t : string) :
  all_in Word w1 = true -> 1 <= length w1 ->
  all_in Word w2 = true -> 1 <= length w2 ->
  stops Word t -> contains newline_str t = false ->
  preprocess_text (w1 ++ String "-" (String newline (w2 ++ t)))
    = preprocess_text (w1 ++ w2 ++ t).
Proof.
  intros H1 L1 H2 L2 Ht Nt.
  pose proof (hyphen_break_here w1 w2 t H1 L1 H2 L2 Ht) as M.
  assert (N : filter_chars is_newline (w1 ++ w2 ++ t) = "").
  { rewrite !filter_chars_append, (word_no_newline _ H1),
      (word_no_newline _ H2).
    apply no_newline_filter, Nt. }
  rewrite (preprocess_text_no_newline_input _ N).
  unfold preprocess_text.
  assert (E : sub hyphen_break [TGroup 1; TGroup 2]
                (w1 ++ String "-" (String newline (w2 ++ t)))
              = w1 ++ w2 ++ t).
  { destruct w1 as [|a w1]; [cbn in L1; lia|].
    replace (String a w1 ++ String "-" (String newline (w2 ++ t)))
      with (String a (w1 ++ String "-" (String newline w2)) ++ t) in *
      by (cbn [append]; rewrite append_assoc; reflexivity).
    rewrite (sub_match _ _ _ _ _ _ M). cbn [expand group Nat.eqb].
    rewrite (sub_no_match _ _ _ (no_newline_no_hyphen_break _ Nt)).
    rewrite append_nil_r, append_assoc. reflexivity. }
  rewrite E.
  rewrite (sub_no_match line_break _ _
             (no_newline_no_line_break _ (proj2 (no_newline_filter _) N))).
  reflexivity.
Qed.

Lemma dehyphenation_joins_example :
  preprocess_text "Proc-
essing 01-07-2023" = preprocess_text "Processing 01-07-2023".
Proof.
  apply (dehyphenation_joins "Proc" "essing" " 01-07-2023"); try reflexivity;
    cbn; lia.
Defined.

Lemma code_then_letter_here (d a : ascii) (w t : string) :
  cset_mem Digit d = true -> all_in Word w = true -> 4 <= length w ->
  cset_mem letter a = true -> stops Word t ->
  match_here code_then_letter (String d (w ++ String a t))
    = Some (t, [(2, String a ""); (1, String d w)]).
Proof.
  intros Hd Hw Lw Ha Ht. unfold match_here, code_then_letter.
  cbn [exec]. rewrite Hd.
  apply repeat_greedy_back;
    [exact Hw | apply letter_word, Ha | exact Ht | exact Lw | |].
  - cbn [exec]. destruct t as [|c t]; [reflexivity|].
    cbn [stops] in Ht. destruct (cset_mem (Union _ _) c) eqn:E; [|reflexivity].
    apply letter_word in E. congruence.
  - cbn [exec]. fold letter. rewrite Ha.
    change (String a t) with (String a "" ++ t) at 1.
    change (String d (w ++ String a t)) with (String d w ++ String a t).
    rewrite !consumed_append. reflexivity.
Qed.

(** X8: The third pass is greedy: in a run of a digit and five or more word
    characters that ends in a letter, the space is put before that last
    letter, not after the first five characters. *)
Theorem token_spacing_before_last_letter (d a : ascii) (w t : string) :
  cset_mem Digit d = true -> all_in Word w = true -> 4 <= length w ->
  cset_mem letter a = true -> stops Word t ->
  contains newline_str t = false ->
  preprocess_text (String d (w ++ String a t))
    = String d (w ++ " " ++ String a (preprocess_text t)).
Proof.
  intros Hd Hw Lw Ha Ht Nt.
  pose proof (code_then_letter_here d a w t Hd Hw Lw Ha Ht) as M.
  apply no_newline_filter in Nt.
  assert (N : filter_chars is_newline (String d (w ++ String a t)) = "").
  { cbn [filter_chars]. rewrite (digit_no_newline _ Hd).
    rewrite filter_chars_append, (word_no_newline _ Hw). cbn [append filter_chars].
    rewrite (letter_no_newline _ Ha). exact Nt. }
  rewrite (preprocess_text_no_newline_input _ N),
    (preprocess_text_no_newline_input _ Nt).
  replace (String d (w ++ String a t)) with (String d (w ++ String a "") ++ t)
    in * by (cbn [append]; rewrite append_assoc; reflexivity).
  rewrite (sub_match _ _ _ _ _ _ M). cbn [expand group Nat.eqb].
  cbn [append]. rewrite append_assoc. reflexivity.
Qed.

Lemma token_spacing_before_last_letter_example :
  preprocess_text "5AAA0Signal 01-07-2023"
    = "5AAA0Signa l 01-07-2023".
Proof.
  apply (token_spacing_before_last_letter "5" "l" "AAA0Signa" " 01-07-2023");
    try reflexivity; cbn; lia.
Defined.

(** ** The section marker, twice *)

(** X9: When the marker occurs a second time, only the text between its first
    two occurrences is scanned: what follows the second occurrence is left
    out, like what precedes the first. *)
Theorem after_second_marker_not_scanned
    (pre mid rest : string) (st : state float) :
  find marker (pre ++ marker ++ mid ++ marker ++ rest) = Some (length pre) ->
  find marker (mid ++ marker ++ rest) = Some (length mid) ->
  parse_text (pre ++ marker ++ mid ++ marker ++ rest) st
    = (Ok tt,
       fold_left include_course (accepted (findall regular_pattern mid)) st).
Proof.
  intros F1 F2. rewrite parse_text_accepted, (section_of_first _ _ F1).
  unfold marker in *. rewrite (split_first _ _ _ _ F2). reflexivity.
Qed.

Lemma after_second_marker_not_scanned_example :
  let pre := "Summary " in
  let mid := " 5AAA0 Signal Processing 01-07-2023 8.5 5 " in
  let rest := " 5BBB0 Control Systems 02-07-2023 6.0 10" in
  parse_text (pre ++ marker ++ mid ++ marker ++ rest) init_state
    = (Ok tt,
       fold_left include_course (accepted (findall regular_pattern mid))
         init_state).
Proof.
  apply (after_second_marker_not_scanned
           "Summary " " 5AAA0 Signal Processing 01-07-2023 8.5 5 "
           " 5BBB0 Control Systems 02-07-2023 6.0 10" init_state);
    reflexivity.
Defined.

(** ** Totals and the list of included courses *)

Section Sums.
Context {A : Type} {num : Number A}.

Lemma fold_totals (l : list (course A)) :
  forall st,
    total_credits (fold_left include_course l st)
      = fold_left add (map credits_of l) (total_credits st) /\
    total_ects (fold_left include_course l st)
      = fold_left add (map credits_of l) (total_ects st) /\
    total_weighted_grades (fold_left include_course l st)
      = fold_left add (map (fun c => mul (grade_of c) (credits_of c)) l)
          (total_weighted_grades st).
Proof.
  induction l as [|c l IH]; intros st; [repeat split|].
  cbn [fold_left map]. destruct (IH (include_course st c)) as (H1 & H2 & H3).
  rewrite H1, H2, H3. destruct c as [[[? ?] g] cr]. repeat split.
Qed.
End Sums.

(** X10: At the end of a run the three totals are the sums, taken in order, over
    the list of included courses: of the credits (twice) and of grade x
    credits. *)
Theorem totals_are_sums_over_included
    (manual : list (course float)) (pages : list string) :
  let st :=
    snd (for_each pages process_page (add_manual_courses manual init_state)) in
  total_credits st = total (map credits_of (included_courses st)) /\
  total_ects st = total (map credits_of (included_courses st)) /\
  total_weighted_grades st
    = total (map (fun c => mul (grade_of c) (credits_of c))
               (included_courses st)).
Proof.
  cbn zeta. rewrite pages_extracted. cbn [snd]. unfold add_manual_courses.
  rewrite <- fold_left_app, included_fold. cbn [included_courses init_state app].
  exact (fold_totals (manual ++ extracted pages) init_state).
Qed.

(** ** Reports *)

Lemma convert_to_us_gpa_in_scale {A : Type} {num : Number A} (g : A) :
  In (convert_to_us_gpa g) us_scale.
Proof.
  unfold convert_to_us_gpa, us_scale.
  repeat match goal with
  | |- context [if ?b then _ else _] => destruct b
  end; cbn [In]; tauto.
Qed.

(** X11: A run prints the three figures only when the total of the credits is
    positive; the European figure is then the quotient of the two totals and
    the US figure its image under the mapping, one of the six values of the
    scale. *)
Theorem report_figures
    (manual : list (course float)) (pages : list string)
    (ects gpa us : float) :
  main manual pages = Report ects gpa us ->
  let st :=
    snd (for_each pages process_page (add_manual_courses manual init_state)) in
  PrimFloat.ltb 0 (total_credits st) = true /\
  ects = total_ects st /\
  gpa = PrimFloat.div (total_weighted_grades st) (total_credits st) /\
  us = convert_to_us_gpa gpa /\
  In us us_scale.
Proof.
  unfold main. rewrite pages_extracted. cbn [snd].
  set (st := fold_left include_course (extracted pages)
               (add_manual_courses manual init_state)).
  destruct (PrimFloat.ltb 0 (total_credits st)) eqn:L.
  - rewrite (finalize_positive _ L). intros [= <- <- <-].
    repeat split. apply convert_to_us_gpa_in_scale.
  - unfold finalize. cbn [ltb lit float_Number]. rewrite L. discriminate.
Qed.

Lemma report_figures_example :
  main [] ["5AAA0 Signal Processing 01-07-2023 8.5 5"]
    = Report 5%float 8.5%float 3.7%float /\
  In 3.7%float us_scale.
Proof.
  split; [reflexivity|].
  destruct (report_figures [] ["5AAA0 Signal Processing 01-07-2023 8.5 5"]
              5%float 8.5%float 3.7%float eq_refl) as (_ & _ & _ & _ & H).
  exact H.
Defined.

(** X12: When a run has included no course at all, it prints that no valid
    course was found. *)
Theorem nothing_included_no_data
    (manual : list (course float)) (pages : list string) :
  included_courses
    (snd (for_each pages process_page (add_manual_courses manual init_state)))
    = [] ->
  main manual pages = NoData.
Proof.
  unfold main. rewrite pages_extracted. cbn [snd]. unfold add_manual_courses.
  rewrite <- fold_left_app, included_fold. cbn [included_courses init_state app].
  intros E. rewrite E. reflexivity.
Qed.

Lemma nothing_included_no_data_example :
  main [] ["5AAA0 Signal Processing 01-07-2023 8.5 4"; "no course here"]
    = NoData.
Proof.
  apply (nothing_included_no_data []
           ["5AAA0 Signal Processing 01-07-2023 8.5 4"; "no course here"]).
  reflexivity.
Defined.

(** X13: A NaN average is mapped to 0.0: every comparison of the mapping fails
    on it. *)
Lemma convert_to_us_gpa_nan (g : float) :
  PrimFloat.is_nan g = true -> convert_to_us_gpa g = 0.0%float.
Proof.
  intros N.
  assert (E : forall c, PrimFloat.leb c g = false).
  { intros c. rewrite FloatAxioms.leb_spec. unfold Prim2SF at 2. rewrite N.
    unfold SFleb, SFcompare. destruct (Prim2SF c); reflexivity. }
  rewrite convert_to_us_gpa_float, !E. reflexivity.
Qed.

(** X14: The pages of a document are read one after the other, each from the
    totals the pages before it left *)
Theorem pages_compose (ps1 ps2 : list string) (st : state float) :
  for_each (ps1 ++ ps2)%list process_page st
    = for_each ps2 process_page (snd (for_each ps1 process_page st)).
Proof.
  rewrite !pages_extracted. cbn [snd]. unfold extracted.
  rewrite flat_map_app, fold_left_app. reflexivity.
Qed.

Lemma convert_to_us_gpa_nan_example :
  PrimFloat.is_nan nan = true /\ convert_to_us_gpa nan = 0.0%float.
Proof.
  split; [reflexivity|]. apply (convert_to_us_gpa_nan nan). reflexivity.
Defined.

(** a grade token spelled [nan] is a number for [float]: the course is
    included and the report shows a NaN average with the US figure 0.0 *)
Example nan_grade_is_included :
  match main [] ["5AAA0 Signal Processing 01-07-2023 nan 5"] with
  | Report ects gpa us =>
      ects = 5%float /\ PrimFloat.is_nan gpa = true /\ us = 0.0%float
  | _ => False
  end.
Proof. vm_compute. repeat split. Qed.

Lemma included_courses_wellformed_example :
  let c := ("5AAA0 Signal Processing ", "01-07-2023", 8.5%float, 5%float) in
  In c (included_courses
          (snd (for_each ["5AAA0 Signal Processing 01-07-2023 8.5 5"]
                  process_page (add_manual_courses [] init_state)))) /\
  is_date (date_of c).
Proof.
  intros c.
  assert (H : In c (included_courses
                      (snd (for_each
                              ["5AAA0 Signal Processing 01-07-2023 8.5 5"]
                              process_page (add_manual_courses [] init_state)))))
    by (left; reflexivity).
  split; [exact H|].
  destruct (included_courses_wellformed [] _ c H) as [[]|(_ & D & _)].
  exact D.
Defined.
